(** * claude-meter: aggregation, streak, trend, goals, quota fetch and render

    A shallow embedding of the parts of [usage.mjs] that compute the
    dashboard numbers and that decide how failures are handled, together
    with the properties of those functions.

    Conventions of the embedding.

    - A calendar day (the [date] field, an ISO [YYYY-MM-DD] string in the
      cache) is the number of that day counted from 1970-01-01, a [Z].
      On such strings [===] is equality of day numbers, [localeCompare]
      is their order, [new Date(s)] is UTC midnight of the day and
      [toISOString().split('T')[0]] is the UTC day of an instant.
    - An instant ([new Date()]) is a number of milliseconds since the
      epoch, a [Z].  Functions that read the clock take the instant as
      their first argument [now]; one call of a function sees one instant.
      [setDate(getDate() - n)] moves the local calendar date back by [n]
      days and keeps the local time of day; the time zone of the process
      is a parameter ([TimeZone]), so that the step is [n] times 24 hours
      give or take the change of the zone's UTC offset in between.
    - A JavaScript number that holds a count is a [Z] (sums stay inside
      the safe integer range).  Where the source divides, the quotient is
      modelled twice: exactly, in [Q], and as the IEEE-754 double the
      engine computes, in [float] (module [Binary64]).
    - A field that a record may lack is an [option]; [None] is
      [undefined].  [aggregateStats] is given on arrays of such records
      and, in module [Dynamic], on any argument: an array that may hold
      [null] or [undefined], or a value that is no array.  An object
      used as a map from model names to counts is a [gmap string Z];
      model names are not names of properties that every object
      inherits.
    - [render] is run to its end before the next handler starts: the
      [await] inside it gives way to no other handler that the
      properties below depend on. *)

From Stdlib Require Import ZArith QArith Qround Lia List String Ascii.
From Stdlib Require Import Floats Uint63.
From stdpp Require Import base gmap list strings pretty.

Local Open Scope Z_scope.

(** ** JavaScript idioms *)

(** [x || 0] on a numeric field. *)
Definition or_zero (x : option Z) : Z :=
  match x with
  | Some z => z
  | None => 0
  end.

(** [x > 0] on a numeric field; [undefined > 0] is [false]. *)
Definition gt_zero (x : option Z) : bool :=
  match x with
  | Some z => 0 <? z
  | None => false
  end.

(** [xs.reduce((a, b) => a + b, 0)]. *)
Definition reduce_sum (xs : list Z) : Z := fold_left Z.add xs 0.

(** ** Data model *)

(** One element of [dailyActivity]. *)
Record DailyActivity := {
  date : Z;
  messageCount : option Z;
  sessionCount : option Z;
  toolCallCount : option Z
}.

(** One element of [dailyModelTokens]; [tokensByModel] is given by its
    [Object.entries]. *)
Record DailyModelTokens := {
  tdate : Z;
  tokensByModel : option (list (string * Z))
}.

(** The value returned by [aggregateStats]. *)
Record Stats := {
  messages : Z;
  sessions : Z;
  toolCalls : Z;
  activeDays : Z
}.

(** The value returned by [aggregateTokens]. *)
Record TokenAggregate := {
  total : Z;
  byModel : gmap string Z
}.

(** ** Calendar *)

Definition MS_PER_DAY : Z := 86400000.

(** [formatDate(date)]: [date.toISOString().split('T')[0]]. *)
Definition formatDate (t : Z) : Z := t / MS_PER_DAY.

(** [new Date(d.date)]. *)
Definition newDate (d : Z) : Z := d * MS_PER_DAY.

(** The time zone of the process.  [LocalTZA tz t true] is the offset of
    local time from UTC, in milliseconds, at the instant [t];
    [LocalTZA tz t false] is the offset in force at the local time [t].
    An offset is less than a day. *)
Record TimeZone := {
  LocalTZA : Z -> bool -> Z;
  LocalTZA_bound :
    forall t isUTC, - MS_PER_DAY < LocalTZA t isUTC < MS_PER_DAY
}.

(** The local time of an instant, and the instant of a local time. *)
Definition LocalTime (tz : TimeZone) (t : Z) : Z := t + LocalTZA tz t true.
Definition UTC (tz : TimeZone) (t : Z) : Z := t - LocalTZA tz t false.

(** [t.setDate(t.getDate() - n)]: the local date goes [n] days back, the
    local time of day stays, and the result is the instant of that local
    time. *)
Definition setDateBack (tz : TimeZone) (t n : Z) : Z :=
  UTC tz (LocalTime tz t - n * MS_PER_DAY).

(** ** Aggregation *)

(** [aggregateStats(data)]. *)
Definition aggregateStats (data : list DailyActivity) : Stats :=
  {| messages := fold_left (fun sum d => sum + or_zero (messageCount d)) data 0;
     sessions := fold_left (fun sum d => sum + or_zero (sessionCount d)) data 0;
     toolCalls := fold_left (fun sum d => sum + or_zero (toolCallCount d)) data 0;
     activeDays :=
       Z.of_nat (length (List.filter (fun d => gt_zero (messageCount d)) data)) |}.

(** [getLast7Days(activity)]. *)
Definition getLast7Days (tz : TimeZone) (now : Z) (activity : list DailyActivity)
  : list DailyActivity :=
  let cutoff := setDateBack tz now 7 in
  List.filter (fun d => cutoff <=? newDate (date d)) activity.

(** [getPrev7Days(activity)]. *)
Definition getPrev7Days (tz : TimeZone) (now : Z) (activity : list DailyActivity)
  : list DailyActivity :=
  let start := setDateBack tz now 14 in
  let end_ := setDateBack tz now 7 in
  List.filter
    (fun d => let date := newDate (date d) in (start <=? date) && (date <? end_))
    activity.

(** The [--today] branch of [printJSON]:
    [activity.filter(d => d.date === todayStr)]. *)
Definition todayRecords (now : Z) (activity : list DailyActivity)
  : list DailyActivity :=
  let todayStr := formatDate now in
  List.filter (fun d => date d =? todayStr) activity.

(** ** Streak *)

(** [[...activity].sort((a, b) => b.date.localeCompare(a.date))]: a stable
    sort, latest day first.  [sort_insert x l] puts [x], which stood before
    the elements of [l], in front of the first element not later than it. *)
Fixpoint sort_insert (x : DailyActivity) (l : list DailyActivity)
  : list DailyActivity :=
  match l with
  | [] => [x]
  | y :: l' => if date x <? date y then y :: sort_insert x l' else x :: y :: l'
  end.

Fixpoint sort_desc (l : list DailyActivity) : list DailyActivity :=
  match l with
  | [] => []
  | x :: l' => sort_insert x (sort_desc l')
  end.

(** The [for] loop of [calculateStreak], with [n = sorted.length - i]
    iterations left. *)
Fixpoint streak_loop (sorted : list DailyActivity) (tz : TimeZone)
    (now today : Z) (n : nat) (i streak : Z) : Z :=
  match n with
  | O => streak
  | S n' =>
      let expected := setDateBack tz now i in
      let expectedStr := formatDate expected in
      let day := List.find (fun d => date d =? expectedStr) sorted in
      if match day with
         | Some d => gt_zero (messageCount d)
         | None => false
         end
      then streak_loop sorted tz now today n' (i + 1) (streak + 1)
      else if (i =? 0) && (expectedStr =? today)
      then streak_loop sorted tz now today n' (i + 1) streak
      else streak
  end.

(** [calculateStreak(activity)]. *)
Definition calculateStreak (tz : TimeZone) (now : Z)
    (activity : list DailyActivity) : Z :=
  let sorted := sort_desc activity in
  let today := formatDate now in
  streak_loop sorted tz now today (length sorted) 0 0.

(** ** Token aggregation *)

(** [Object.entries(day.tokensByModel || {})]. *)
Definition entries (day : DailyModelTokens) : list (string * Z) :=
  match tokensByModel day with
  | Some es => es
  | None => []
  end.

(** [totals[model] = (totals[model] || 0) + tokens]. *)
Definition add_tokens (totals : gmap string Z) (e : string * Z)
  : gmap string Z :=
  let '(model, tokens) := e in
  <[model := or_zero (totals !! model) + tokens]> totals.

(** [aggregateTokens(tokenData, dates)]. *)
Definition aggregateTokens (tokenData : list DailyModelTokens)
    (dates : list DailyActivity) : TokenAggregate :=
  let dateSet : gset Z := list_to_set (map date dates) in
  let filtered := List.filter (fun d => bool_decide (tdate d ∈ dateSet)) tokenData in
  let totals :=
    fold_left (fun totals day => fold_left add_tokens (entries day) totals)
              filtered (∅ : gmap string Z) in
  {| total := reduce_sum (map snd (map_to_list totals));
     byModel := totals |}.

(** ** Terminal colours *)

Module c.
Definition esc : string := String (ascii_of_nat 27) EmptyString.
Definition reset : string := esc +:+ "[0m".
Definition dim : string := esc +:+ "[2m".
Definition red : string := esc +:+ "[31m".
Definition green : string := esc +:+ "[32m".
Definition yellow : string := esc +:+ "[33m".
End c.

(** ** Trend and goals, in exact arithmetic *)

Definition Qltb (x y : Q) : bool := negb (Qle_bool y x).

(** [Math.round(x)]: the nearest integer, a tie going up. *)
Definition Math_round (x : Q) : Z := Qfloor (x + (1 # 2)).

(** [Math.min(x, y)]. *)
Definition Math_min (x y : Q) : Q := if Qle_bool x y then x else y.

(** [getTrend(current, previous)]. *)
Definition getTrend (current previous : Z) : string :=
  if previous =? 0 then " "
  else
    let diff := ((inject_Z (current - previous) / inject_Z previous) * 100)%Q in
    if Qltb 10 diff then c.green +:+ "↑" +:+ c.reset
    else if Qltb diff (-10) then c.red +:+ "↓" +:+ c.reset
    else c.dim +:+ "→" +:+ c.reset.

(** The goals file: [{ daily, weekly, setAt }]. *)
Record Goals := {
  daily : Z;
  weekly : Z;
  setAt : string
}.

(** One row of [printGoalsProgress]: the percentage that fills the bar and
    the status printed after it.  [dailyPct] and [weeklyPct] are
    [goalPct], [dailyStatus] and [weeklyStatus] are [goalStatus]. *)
Definition goalPct (msgs goal : Z) : Q :=
  Math_min ((inject_Z msgs / inject_Z goal) * 100) 100.

Definition goalStatus (msgs goal : Z) : string :=
  if goal <=? msgs then c.green +:+ "✓" +:+ c.reset
  else pretty (Math_round (goalPct msgs goal)) +:+ "%".

(** [printGoalsProgress(todayMsgs, weekMsgs, goals)]: the two rows, each
    with its percentage and status (the bar and the counts are drawn from
    the same arguments). *)
Definition printGoalsProgress (todayMsgs weekMsgs : Z) (goals : Goals)
  : list (string * Q * string) :=
  [ ("Daily", goalPct todayMsgs (daily goals), goalStatus todayMsgs (daily goals));
    ("Weekly", goalPct weekMsgs (weekly goals), goalStatus weekMsgs (weekly goals)) ].

(** ** Trend and goals, in double precision *)

Module Binary64.

(** The double that holds an integer count (exact below 2^53). *)
Definition of_Z (z : Z) : float :=
  if z <? 0 then PrimFloat.opp (PrimFloat.of_uint63 (Uint63.of_Z (- z)))
  else PrimFloat.of_uint63 (Uint63.of_Z z).

(** [Math.round(x)] of a finite double: the nearest integer, a tie going
    up, computed from the sign, mantissa and exponent of [x]. *)
Definition Math_round (x : float) : option Z :=
  match Prim2SF x with
  | S754_zero _ => Some 0
  | S754_finite s m e =>
      let q := if s then Z.neg m else Z.pos m in
      Some (if 0 <=? e then q * 2 ^ e
            else (2 * q + 2 ^ (- e)) / 2 ^ (- e + 1))
  | S754_infinity _ | S754_nan => None
  end.

(** [`${Math.round(x)}`]. *)
Definition show_rounded (x : float) : string :=
  match Math_round x with
  | Some n => pretty n
  | None =>
      match Prim2SF x with
      | S754_infinity true => "-Infinity"
      | S754_infinity false => "Infinity"
      | _ => "NaN"
      end
  end.

(** [Math.min(x, y)]. *)
Definition Math_min (x y : float) : float :=
  if PrimFloat.is_nan x || PrimFloat.is_nan y then PrimFloat.nan
  else if PrimFloat.leb x y then x else y.

(** [getTrend(current, previous)]. *)
Definition getTrend (current previous : Z) : string :=
  if previous =? 0 then " "
  else
    let diff :=
      PrimFloat.mul
        (PrimFloat.div (PrimFloat.sub (of_Z current) (of_Z previous))
                       (of_Z previous))
        (of_Z 100) in
    if PrimFloat.ltb (of_Z 10) diff then c.green +:+ "↑" +:+ c.reset
    else if PrimFloat.ltb diff (of_Z (-10)) then c.red +:+ "↓" +:+ c.reset
    else c.dim +:+ "→" +:+ c.reset.

Definition goalPct (msgs goal : Z) : float :=
  Math_min (PrimFloat.mul (PrimFloat.div (of_Z msgs) (of_Z goal)) (of_Z 100))
           (of_Z 100).

Definition goalStatus (msgs goal : Z) : string :=
  if goal <=? msgs then c.green +:+ "✓" +:+ c.reset
  else show_rounded (goalPct msgs goal) +:+ "%".

End Binary64.

(** ** Exceptions *)

(** The result of an expression that may throw. *)
Inductive outcome (A : Type) : Type :=
| Ok (a : A)
| Throw (message : string).
Arguments Ok {A} a.
Arguments Throw {A} message.

#[global] Instance outcome_ret : MRet outcome := fun A a => Ok a.
#[global] Instance outcome_bind : MBind outcome := fun A B k m =>
  match m with
  | Ok a => k a
  | Throw message => Throw message
  end.

(** [try { body } catch (err) { handler }]. *)
Definition try_catch {A : Type} (body : outcome A) (handler : string -> outcome A)
  : outcome A :=
  match body with
  | Ok a => Ok a
  | Throw message => handler message
  end.

(** ** [aggregateStats] on any argument *)

Module Dynamic.

(** The two values that have no properties. *)
Inductive Nullish := null | undefined.

Definition show (v : Nullish) : string :=
  match v with
  | null => "null"
  | undefined => "undefined"
  end.

(** The [TypeError] of reading a property of such a value. *)
Definition cannotRead (v : Nullish) (name : string) : string :=
  "Cannot read properties of " +:+ show v +:+ " (reading '" +:+ name +:+ "')".

(** An element of the array: [null] or [undefined], or a value whose
    properties can be read, given by the counts it holds or lacks. *)
Inductive Element :=
| Missing (v : Nullish)
| Object (d : DailyActivity).

(** What [aggregateStats] is handed: [null] or [undefined], another value
    that has no [reduce], or an array. *)
Inductive Argument :=
| NoValue (v : Nullish)
| NotArray
| Array (elements : list Element).

(** [data.reduce((sum, d) => sum + (d.field || 0), 0)]. *)
Fixpoint reduce_field (field : DailyActivity -> option Z) (name : string)
    (data : list Element) (sum : Z) : outcome Z :=
  match data with
  | [] => Ok sum
  | Missing v :: _ => Throw (cannotRead v name)
  | Object d :: data' => reduce_field field name data' (sum + or_zero (field d))
  end.

(** [data.filter(d => d.messageCount > 0)]. *)
Fixpoint filter_active (data : list Element) : outcome (list Element) :=
  match data with
  | [] => Ok []
  | Missing v :: _ => Throw (cannotRead v "messageCount")
  | Object d :: data' =>
      kept ← filter_active data';
      Ok (if gt_zero (messageCount d) then Object d :: kept else kept)
  end.

(** [aggregateStats(data)]. *)
Definition aggregateStats (data : Argument) : outcome Stats :=
  match data with
  | NoValue v => Throw (cannotRead v "reduce")
  | NotArray => Throw "data.reduce is not a function"
  | Array elements =>
      m ← reduce_field messageCount "messageCount" elements 0;
      s ← reduce_field sessionCount "sessionCount" elements 0;
      t ← reduce_field toolCallCount "toolCallCount" elements 0;
      active ← filter_active elements;
      Ok {| messages := m; sessions := s; toolCalls := t;
            activeDays := Z.of_nat (length active) |}
  end.

End Dynamic.

(** ** Quota fetch *)

Definition USAGE_API : string := "https://api.anthropic.com/api/oauth/usage".
Definition ANTHROPIC_BETA : string := "oauth-2025-04-20".

(** The saved credential: [type] is ["oauth"] or ["api-key"]. *)
Record Auth := {
  type : string;
  accessToken : option string
}.

Record Request := {
  url : string;
  headers : list (string * string)
}.

(** What [fetch] resolves to: the status line, and what [response.json()]
    gives (it throws on a body that is not JSON). *)
Record Response (Json : Type) := {
  status : Z;
  json : outcome Json
}.
Arguments status {Json} _.
Arguments json {Json} _.

(** [response.ok]: the status is in the range 200-299. *)
Definition ok {Json : Type} (response : Response Json) : bool :=
  (200 <=? status response) && (status response <=? 299).

(** [`Bearer ${auth.accessToken}`]. *)
Definition bearer (auth : Auth) : string :=
  "Bearer " +:+ match accessToken auth with
                | Some token => token
                | None => "undefined"
                end.

(** The request of [fetchQuota]. *)
Definition quotaRequest (auth : Auth) : Request :=
  {| url := USAGE_API;
     headers := [("Authorization", bearer auth);
                 ("anthropic-beta", ANTHROPIC_BETA);
                 ("Accept", "application/json")] |}.

(** [fetchQuota(auth)]; [fetch] is the network: it gives a response or
    throws.  The [try] block either returns a value ([Some]) or is left
    ([None]), on which the function returns [null]. *)
Definition fetchQuota {Json : Type} (fetch : Request -> outcome (Response Json))
    (auth : option Auth) : outcome (option Json) :=
  match auth with
  | None => Ok None
  | Some a =>
      if negb (String.eqb (type a) "oauth") then Ok None
      else
        returned ← try_catch
          (response ← fetch (quotaRequest a);
           if ok response
           then body ← json response; Ok (Some body)
           else Ok None)
          (fun _ => Ok None);
        match returned with
        | Some body => Ok (Some body)
        | None => Ok None
        end
  end.

(** ** The process *)

(** What the process has written, and the [showGoals] toggle. *)
Record Process := {
  stdout : list string;
  stderr : list string;
  showGoals : bool
}.

(** How a statement ends: normally, by an exception, or in
    [process.exit(code)]. *)
Inductive completion (A : Type) : Type :=
| Normal (a : A)
| Thrown (message : string)
| Exit (code : Z).
Arguments Normal {A} a.
Arguments Thrown {A} message.
Arguments Exit {A} code.

Definition io (A : Type) : Type := Process -> completion A * Process.

#[global] Instance io_ret : MRet io := fun A a p => (Normal a, p).
#[global] Instance io_bind : MBind io := fun A B k m p =>
  match m p with
  | (Normal a, p') => k a p'
  | (Thrown message, p') => (Thrown message, p')
  | (Exit code, p') => (Exit code, p')
  end.

(** [process.stdout.write(chunk)]. *)
Definition stdout_write (chunk : string) : io unit := fun p =>
  (Normal tt, {| stdout := stdout p ++ [chunk]; stderr := stderr p;
                 showGoals := showGoals p |}).

Definition newline : string := String (ascii_of_nat 10) EmptyString.

Definition console_log (line : string) : io unit :=
  stdout_write (line +:+ newline).

Definition console_error (line : string) : io unit := fun p =>
  (Normal tt, {| stdout := stdout p; stderr := stderr p ++ [line +:+ newline];
                 showGoals := showGoals p |}).

Definition process_exit {A : Type} (code : Z) : io A := fun p => (Exit code, p).

Definition throw {A : Type} (message : string) : io A := fun p =>
  (Thrown message, p).

Definition lift {A : Type} (o : outcome A) : io A :=
  match o with
  | Ok a => mret a
  | Throw message => throw message
  end.

(** [try { body } catch (err) { handler }] around statements: what the body
    wrote before it threw stays written; [process.exit] is not caught. *)
Definition io_try_catch {A : Type} (body : io A) (handler : string -> io A)
  : io A := fun p =>
  match body p with
  | (Thrown message, p') => handler message p'
  | r => r
  end.

Definition when (b : bool) (m : io unit) : io unit :=
  if b then m else mret tt.

(** What a drawing function does: the chunks it writes and, if it throws
    on the way, the message. *)
Definition Drawing : Type := list string * option string.

Definition draw (d : Drawing) : io unit := fun p =>
  let p' := {| stdout := stdout p ++ fst d; stderr := stderr p;
               showGoals := showGoals p |} in
  match snd d with
  | None => (Normal tt, p')
  | Some message => (Thrown message, p')
  end.

(** Reading the [showGoals] toggle. *)
Definition readShowGoals : io bool := fun p => (Normal (showGoals p), p).

(** The command line. [command] is the first of [-h], [-v],
    [--goals-clear], [--goals], [--auth], [--logout], [--popup] that
    [main] acts on, if any. *)
Inductive Command :=
| ShowHelp | ShowVersion | GoalsClear | GoalsArg | AuthArg | AuthLogout | PopupArg.

Record Flags := {
  command : option Command;
  jsonOutput : bool;
  compactOutput : bool;
  exportFile : option string;
  watchMode : bool
}.

(** What the program finds around it when a handler runs: the files, the
    network, the commands that [main] hands over to, and what the drawing
    functions produce ([printStats] from the data, the quota and the
    [showGoals] toggle; [updateProgressBar] writes one status line).
    [STATS_FILE] is the path of the stats file, [statsFile] its content. *)
Record World (Json Data : Type) := {
  STATS_FILE : string;
  statsFile : option string;
  JSON_parse : string -> outcome Data;
  loadAuth : option Auth;
  loadGoals : option Goals;
  fetch : Request -> outcome (Response Json);
  runCommand : Command -> io unit;
  printJSON : Data -> Drawing;
  printCompact : Data -> Drawing;
  exportStats : Data -> Drawing;
  printStats : Data -> option Json -> bool -> Drawing;
  updateProgressBar : string
}.
Arguments STATS_FILE {Json Data} _.
Arguments statsFile {Json Data} _.
Arguments JSON_parse {Json Data} _ _.
Arguments loadAuth {Json Data} _.
Arguments loadGoals {Json Data} _.
Arguments fetch {Json Data} _ _.
Arguments runCommand {Json Data} _ _.
Arguments printJSON {Json Data} _ _.
Arguments printCompact {Json Data} _ _.
Arguments exportStats {Json Data} _ _.
Arguments printStats {Json Data} _ _ _ _.
Arguments updateProgressBar {Json Data} _.

(** The message of the error that [readFileSync] throws for a file that
    does not exist. *)
Definition ENOENT (path : string) : string :=
  "ENOENT: no such file or directory, open '" +:+ path +:+ "'".

Definition clear : string := c.esc +:+ "[2J" +:+ c.esc +:+ "[H".
Definition hideCursor : string := c.esc +:+ "[?25l".
Definition showCursor : string := c.esc +:+ "[?25h".

Section Program.
Context {Json Data : Type}.
Variable flags : Flags.

(** [existsSync(STATS_FILE)]. *)
Definition existsSync (w : World Json Data) : bool :=
  match statsFile w with
  | Some _ => true
  | None => false
  end.

(** [readFileSync(STATS_FILE, 'utf8')]. *)
Definition readFileSync (w : World Json Data) : outcome string :=
  match statsFile w with
  | Some text => Ok text
  | None => Throw (ENOENT (STATS_FILE w))
  end.

(** [render()]. *)
Definition render (w : World Json Data) : io unit :=
  io_try_catch
    (text ← lift (readFileSync w);
     data ← lift (JSON_parse w text);
     let auth := loadAuth w in
     quota ← match auth with
             | Some a =>
                 if String.eqb (type a) "oauth"
                 then lift (fetchQuota (fetch w) auth)
                 else mret None
             | None => mret None
             end;
     if jsonOutput flags then draw (printJSON w data)
     else if compactOutput flags then draw (printCompact w data)
     else if bool_decide (is_Some (exportFile flags)) then draw (exportStats w data)
     else
       (when (watchMode flags) (stdout_write clear);;
        goalsShown ← readShowGoals;
        draw (printStats w data quota goalsShown)))
    (fun message =>
       console_error (c.red +:+ "Error: " +:+ message +:+ c.reset);;
       if negb (watchMode flags) then process_exit 1 else mret tt).

(** [cleanup()]. *)
Definition cleanup : io unit :=
  stdout_write showCursor;;
  stdout_write newline;;
  console_log (c.dim +:+ "Goodbye!" +:+ c.reset);;
  process_exit 0.

Definition toggleGoals : io unit := fun p =>
  (Normal tt, {| stdout := stdout p; stderr := stderr p;
                 showGoals := negb (showGoals p) |}).

(** [handleKeypress(key)]; the line for [g] without goals is given after
    the drawing of [render]. *)
Definition handleKeypress (w : World Json Data) (char : string) : io unit :=
  when (String.eqb char "q" || String.eqb char (String (ascii_of_nat 3) EmptyString))
       cleanup;;
  when (String.eqb char "r") (render w);;
  when (String.eqb char "g")
       (match loadGoals w with
        | None =>
            stdout_write clear;;
            render w;;
            console_log (newline +:+ c.yellow
                         +:+ "No goals set. Use: claude-meter --goals <daily> <weekly>"
                         +:+ c.reset)
        | Some _ =>
            toggleGoals;;
            render w
        end).

(** How [main] leaves the process: with nothing registered (the process
    ends) or with the timers, the file watch and the key handler of
    watch mode. *)
Inductive Registered := Nothing | Scheduler.

(** [main()]. *)
Definition main (w : World Json Data) : io Registered :=
  match command flags with
  | Some cmd => runCommand w cmd;; mret Nothing
  | None =>
      when (negb (existsSync w))
           (console_error (c.red +:+ "Error: Stats file not found." +:+ c.reset);;
            console_error "Make sure Claude Code CLI is installed and has been used.";;
            process_exit 1);;
      if watchMode flags then
        stdout_write hideCursor;;
        render w;;
        mret Scheduler
      else
        render w;;
        mret Nothing
  end.

(** What wakes the process in watch mode. *)
Inductive Trigger :=
| RefreshTimer
| FileChange
| ProgressTimer
| Keypress (char : string)
| Signal.

Definition dispatch (w : World Json Data) (t : Trigger) : io unit :=
  match t with
  | RefreshTimer => render w
  | FileChange => render w
  | ProgressTimer => stdout_write (updateProgressBar w)
  | Keypress char => handleKeypress w char
  | Signal => cleanup
  end.

(** The event loop of watch mode: handlers run one after the other, each
    in the world of its moment, until one ends the process. *)
Fixpoint eventLoop (events : list (World Json Data * Trigger)) : io unit :=
  match events with
  | [] => mret tt
  | (w, t) :: events' => dispatch w t;; eventLoop events'
  end.

End Program.

(** ** Notions used to state the properties *)

(** Sum of a list of integers. *)
Definition sumZ (xs : list Z) : Z := foldr Z.add 0 xs.

(** A record as the cache writes it, with every field present. *)
Definition record (day msgs sess tools : Z) : DailyActivity :=
  {| date := day; messageCount := Some msgs;
     sessionCount := Some sess; toolCallCount := Some tools |}.

(** The day has a record, the first of its date, with messages. *)
Definition activeOn (activity : list DailyActivity) (day : Z) : bool :=
  match List.find (fun d => date d =? day) activity with
  | Some d => gt_zero (messageCount d)
  | None => false
  end.

(** No record of the history carries that date. *)
Definition absentOn (activity : list DailyActivity) (day : Z) : Prop :=
  List.find (fun d => date d =? day) activity = None.

(** Counts are not negative, where present. *)
Definition wellFormed (activity : list DailyActivity) : Prop :=
  Forall (fun d => 0 <= or_zero (messageCount d)) activity.

(** Tokens of one model among the entries of a day. *)
Fixpoint modelTokens (model : string) (es : list (string * Z)) : Z :=
  match es with
  | [] => 0
  | (m, tokens) :: es' =>
      (if String.eqb m model then tokens else 0) + modelTokens model es'
  end.

(** The percentage the goals block is specified to show:
    [min(100, round(100 * current / goal))], the rounding done on the
    exact quotient, a tie going up. *)
Definition specPercent (current goal : Z) : Z :=
  Z.min 100 ((2 * (100 * current) + goal) / (2 * goal)).

(** The zone of UTC. *)
Definition Etc_UTC : TimeZone :=
  {| LocalTZA := fun _ _ => 0;
     LocalTZA_bound := fun _ _ => conj eq_refl eq_refl |}.

(** The offset in force [n] days back, at the present local time of day,
    is the present offset: no change of offset separates the two. *)
Definition sameOffset (tz : TimeZone) (now n : Z) : Prop :=
  LocalTZA tz (LocalTime tz now - n * MS_PER_DAY) false = LocalTZA tz now true.

(** The first calendar day whose UTC midnight is not before the instant. *)
Definition firstDayFrom (t : Z) : Z :=
  if t mod MS_PER_DAY =? 0 then formatDate t else formatDate t + 1.

(** New York around the end of daylight time in 2024: four hours behind UTC
    until 3 November (day 20030), 06:00 UTC, which is 02:00 local daylight
    time, and five hours behind from then on. *)
Definition America_New_York : TimeZone :=
  {| LocalTZA := fun t isUTC =>
       if t <? 20030 * MS_PER_DAY + (if isUTC then 21600000 else 7200000)
       then -14400000 else -18000000;
     LocalTZA_bound := fun t isUTC =>
       match t <? 20030 * MS_PER_DAY + (if isUTC then 21600000 else 7200000)
             as b
             return - MS_PER_DAY < (if b then -14400000 else -18000000)
                    < MS_PER_DAY
       with
       | true => conj eq_refl eq_refl
       | false => conj eq_refl eq_refl
       end |}.

(** Half past midnight UTC on 6 November 2024 (day 20033). *)
Definition november6 : Z := 20033 * MS_PER_DAY + 1800000.

(** Noon of day 20000, and the history whose one record is the day before. *)
Definition noon20000 : Z := 20000 * MS_PER_DAY + 43200000.
Definition onlyYesterday : list DailyActivity := [record 19999 5 1 0].

(** The record dated seven days before [noon20000]. *)
Definition sevenBack : DailyActivity := record 19993 10 1 0.

(** The markers of [getTrend]: blank when there is nothing to compare
    with, and the three arrows. *)
Definition noTrend : string := " ".
Definition upMarker : string := c.green +:+ "↑" +:+ c.reset.
Definition downMarker : string := c.red +:+ "↓" +:+ c.reset.
Definition steadyMarker : string := c.dim +:+ "→" +:+ c.reset.

(** A marker that shows neither a rise nor a fall. *)
Definition neutral (marker : string) : Prop :=
  marker = noTrend \/ marker = steadyMarker.

(** The model has an entry in the token record of the day. *)
Definition appears (model : string) (day : DailyModelTokens) : bool :=
  existsb (fun e => String.eqb (fst e) model) (entries day).

(** The date of the token record is the date of a record of [dates]. *)
Definition dated (dates : list DailyActivity) (day : DailyModelTokens) : bool :=
  existsb (fun a => date a =? tdate day) dates.

(** All the tokens of a day. *)
Definition dayTokens (day : DailyModelTokens) : Z := sumZ (map snd (entries day)).

(** The [for] loops of [aggregateTokens], from any starting totals. *)
Definition accumulate (days : list DailyModelTokens) (totals : gmap string Z)
  : gmap string Z :=
  fold_left (fun totals day => fold_left add_tokens (entries day) totals)
            days totals.

(** [Object.values(totals).reduce((a, b) => a + b, 0)]. *)
Definition sumValues (totals : gmap string Z) : Z :=
  reduce_sum (map snd (map_to_list totals)).

(** Token records of three days, and the activity of the first two. *)
Definition tokensA : DailyModelTokens :=
  {| tdate := 1; tokensByModel := Some [("opus"%string, 500); ("haiku"%string, 20)] |}.
Definition tokensB : DailyModelTokens :=
  {| tdate := 2; tokensByModel := Some [("opus"%string, 300)] |}.
Definition tokensC : DailyModelTokens :=
  {| tdate := 3; tokensByModel := Some [("opus"%string, 7000); ("sonnet"%string, 1)] |}.
Definition activityAB : list DailyActivity := [record 1 10 1 0; record 2 4 1 0].

(** Statements that end normally from every state. *)
Definition alwaysNormal (m : io unit) : Prop :=
  forall p, exists p', m p = (Normal tt, p').

(** The triggers that end the process: the interrupt signals, [q] and
    Ctrl+C. *)
Definition quits (t : Trigger) : bool :=
  match t with
  | Signal => true
  | Keypress char =>
      String.eqb char "q" || String.eqb char (String (ascii_of_nat 3) EmptyString)
  | _ => false
  end.

(** The triggers that run one [render] and nothing else: the refresh
    timer, a change of the stats file, and [r]. *)
Definition refreshes (t : Trigger) : bool :=
  match t with
  | RefreshTimer | FileChange => true
  | Keypress char => String.eqb char "r"
  | _ => false
  end.

(** The two lines [main] prints when the stats file is missing, and the
    line [render] prints for an exception. *)
Definition notFoundLine : string :=
  c.red +:+ "Error: Stats file not found." +:+ c.reset +:+ newline.
Definition guidanceLine : string :=
  "Make sure Claude Code CLI is installed and has been used." +:+ newline.
Definition errorLine (message : string) : string :=
  c.red +:+ "Error: " +:+ message +:+ c.reset +:+ newline.

(** A process that has written nothing, a command line without options
    and one with [--watch]. *)
Definition freshProcess : Process :=
  {| stdout := []; stderr := []; showGoals := true |}.
Definition plainFlags : Flags :=
  {| command := None; jsonOutput := false; compactOutput := false;
     exportFile := None; watchMode := false |}.
Definition watchFlags : Flags :=
  {| command := None; jsonOutput := false; compactOutput := false;
     exportFile := None; watchMode := true |}.

(** A world without stats file, and one with a stats file that holds the
    number of lines to draw; the network is down in both. *)
Definition noStatsWorld : World unit nat :=
  {| STATS_FILE := "/home/user/.claude/stats-cache.json";
     statsFile := None;
     JSON_parse := fun _ => Throw "Unexpected end of JSON input";
     loadAuth := Some {| type := "oauth"; accessToken := Some "token" |};
     loadGoals := None;
     fetch := fun _ => Throw "fetch failed";
     runCommand := fun _ => mret tt;
     printJSON := fun _ => ([], None);
     printCompact := fun _ => ([], None);
     exportStats := fun _ => ([], None);
     printStats := fun _ _ _ => ([], None);
     updateProgressBar := "Next refresh in 30s" |}.
Definition statsWorld : World unit nat :=
  {| STATS_FILE := "/home/user/.claude/stats-cache.json";
     statsFile := Some "{}";
     JSON_parse := fun text => Ok (String.length text);
     loadAuth := Some {| type := "oauth"; accessToken := Some "token" |};
     loadGoals := None;
     fetch := fun _ => Throw "fetch failed";
     runCommand := fun _ => mret tt;
     printJSON := fun _ => ([], None);
     printCompact := fun _ => ([], None);
     exportStats := fun _ => ([], None);
     printStats := fun n quota _ =>
       (["dashboard"] ++ match quota with Some _ => ["quota"] | None => [] end,
        None);
     updateProgressBar := "Next refresh in 30s" |}.

(** * Further notions *)

(** Every entry of every token record counts a number of tokens that is
    not negative. *)
Definition tokensWellFormed (tokenData : list DailyModelTokens) : Prop :=
  Forall (fun day => Forall (fun e => 0 <= snd e) (entries day)) tokenData.

(** Fourteen days, each with a record of 100 messages, ending on day 20000. *)
Definition fortnight : list DailyActivity :=
  map (fun k => record (20000 - Z.of_nat k) 100 1 5) (seq 0 14).

(** The fortnight without the record of day 20000. *)
Definition fortnightPending : list DailyActivity :=
  map (fun k => record (19999 - Z.of_nat k) 100 1 5) (seq 0 13).

(** * More of the program *)

(** ** Time until a reset *)

(** The [isoDate] argument of [formatTimeUntil]: missing (or empty), a
    string that is no date, or the instant it denotes. *)
Inductive IsoDate :=
| NoDate
| BadDate
| Instant (t : Z).

(** [formatTimeUntil(isoDate)]. *)
Definition formatTimeUntil (now : Z) (isoDate : IsoDate) : string :=
  match isoDate with
  | NoDate => EmptyString
  | BadDate => "NaNm"
  | Instant reset =>
      let diffMs := reset - now in
      if diffMs <=? 0 then "now"
      else
        let hours := diffMs / (1000 * 60 * 60) in
        let minutes := (diffMs mod (1000 * 60 * 60)) / (1000 * 60) in
        if 24 <? hours then
          let days := hours / 24 in
          pretty days +:+ "d " +:+ pretty (hours mod 24) +:+ "h"
        else if 0 <? hours then pretty hours +:+ "h " +:+ pretty minutes +:+ "m"
        else pretty minutes +:+ "m"
  end.

(** ** The countdown of watch mode *)



(** ** Bars *)

Definition c_blue : string := c.esc +:+ "[34m".
Definition c_cyan : string := c.esc +:+ "[36m".
Definition c_yellow : string := c.yellow.
Definition c_brightRed : string := c.esc +:+ "[91m".
Definition c_bold : string := c.esc +:+ "[1m".

Fixpoint copies (s : string) (n : nat) : string :=
  match n with
  | O => EmptyString
  | S k => s +:+ copies s k
  end.

(** [s.repeat(count)]: a RangeError when [count] is negative. *)
Definition String_repeat (s : string) (count : Z) : outcome string :=
  if count <? 0 then Throw ("Invalid count value: " +:+ pretty count)
  else Ok (copies s (Z.to_nat count)).

(** [`${color}${'█'.repeat(filled)}${c.dim}${'░'.repeat(empty)}${c.reset}`]. *)
Definition drawBar (color : string) (filled empty : Z) : outcome string :=
  full ← String_repeat "█" filled;
  rest ← String_repeat "░" empty;
  Ok (color +:+ full +:+ c.dim +:+ rest +:+ c.reset).

(** [makeQuotaBar(percent, width)]. *)
Definition makeQuotaBar (percent : Q) (width : Z) : outcome string :=
  let filled := Math_round ((percent / 100) * inject_Z width) in
  let empty := width - filled in
  let color :=
    if Qle_bool 90 percent then c_brightRed
    else if Qle_bool 75 percent then c.red
    else if Qle_bool 50 percent then c_yellow
    else if Qle_bool 25 percent then c_cyan
    else c.green in
  drawBar color filled empty.

(** [makeProgressBar(percent, width)]. *)
Definition makeProgressBar (percent : Q) (width : Z) : outcome string :=
  let filled := Math_round ((percent / 100) * inject_Z width) in
  let empty := width - filled in
  let color :=
    if Qle_bool 100 percent then c.green
    else if Qle_bool 75 percent then c_yellow
    else if Qle_bool 50 percent then c_cyan
    else if Qle_bool 25 percent then c_blue
    else c.red in
  drawBar color filled empty.

(** A bar as it is meant to look: [filled] full cells in [color], then
    [empty] shaded cells. *)
Definition bar (color : string) (filled empty : nat) : string :=
  color +:+ copies "█" filled +:+ c.dim +:+ copies "░" empty +:+ c.reset.

(** ** The quota block *)

(** One limit of the quota: [{ utilization, resets_at }]. *)
Record QuotaLimit := {
  utilization : option Q;
  resets_at : IsoDate
}.

(** The quota: [{ five_hour, seven_day }]. *)
Record Quota := {
  five_hour : option QuotaLimit;
  seven_day : option QuotaLimit
}.

Section PrintQuota.
(** How the engine writes a number. *)
Variable showNumber : Q -> string.

(** One limit of [printQuota]: the line it logs, or the exception of the
    bar. *)
Definition quotaLine (now : Z) (label : string) (limit : QuotaLimit)
  : outcome string :=
  let pct := match utilization limit with
             | Some u => if Qeq_bool u 0 then 0%Q else u
             | None => 0%Q
             end in
  bar ← makeQuotaBar pct 20;
  let resetTime := formatTimeUntil now (resets_at limit) in
  let resetLabel :=
    if String.eqb resetTime EmptyString then EmptyString
    else c.dim +:+ "resets in " +:+ resetTime +:+ c.reset in
  Ok (label +:+ bar +:+ " " +:+ showNumber pct +:+ "% " +:+ resetLabel).

(** [printQuota(quota)]: the lines logged and, if a bar throws, the
    message. *)
Definition printQuota (now : Z) (quota : Quota) : Drawing :=
  let header := c_bold +:+ "Quota" +:+ c.reset +:+ " " +:+ c.dim +:+ "(live)"
                +:+ c.reset +:+ newline in
  let first :=
    match five_hour quota with
    | Some limit =>
        match quotaLine now "  5-hour  " limit with
        | Ok line => ([line +:+ newline], None)
        | Throw message => ([], Some message)
        end
    | None => ([], None)
    end in
  match snd first with
  | Some message => (header :: fst first, Some message)
  | None =>
      match seven_day quota with
      | Some limit =>
          match quotaLine now "  7-day   " limit with
          | Ok line => (header :: fst first ++ [line +:+ newline], None)
          | Throw message => (header :: fst first, Some message)
          end
      | None => (header :: fst first, None)
      end
  end.

End PrintQuota.

(** The utilization of every limit that is present lies between 0 and 100. *)
Definition utilizationInRange (limit : option QuotaLimit) : Prop :=
  match limit with
  | Some l =>
      match utilization l with
      | Some u => (0 <= u)%Q /\ (u <= 100)%Q
      | None => True
      end
  | None => True
  end.

(** ** Heatmap and daily chart *)

(** A number that need not be finite. *)
Inductive number :=
| NaN
| Infinity (negative : bool)
| Finite (q : Q).

(** [x / y] of two counts; a missing count is [undefined]. *)
Definition divide (x y : option Z) : number :=
  match x, y with
  | Some a, Some b =>
      if b =? 0 then (if a =? 0 then NaN else Infinity (a <? 0))
      else Finite (inject_Z a / inject_Z b)
  | _, _ => NaN
  end.

(** [x > y] of two counts. *)
Definition js_gt (x y : option Z) : bool :=
  match x, y with
  | Some a, Some b => b <? a
  | _, _ => false
  end.

(** [Math.max(...xs, 1)]; [None] is NaN. *)
Definition Math_max1 (xs : list (option Z)) : option Z :=
  foldr (fun x acc =>
           match x, acc with
           | Some a, Some b => Some (Z.max a b)
           | _, _ => None
           end)
        (Some 1) xs.

(** [activity.slice(-days)]. *)
Definition slice_last {A : Type} (l : list A) (days : nat) : list A :=
  match days with
  | O => l
  | _ => skipn (length l - days) l
  end.

(** [getHeatColor(intensity)]. *)
Definition getHeatColor (intensity : number) : string :=
  match intensity with
  | Finite q =>
      if Qeq_bool q 0 then c.dim
      else if Qltb q (2 # 10) then c_blue
      else if Qltb q (4 # 10) then c_cyan
      else if Qltb q (6 # 10) then c.green
      else if Qltb q (8 # 10) then c_yellow
      else c_brightRed
  | Infinity true => c_blue
  | Infinity false | NaN => c_brightRed
  end.

Definition blocks : list string := ["░"; "▒"; "▓"; "█"]%string.

(** [blocks[Math.min(Math.floor(intensity * 4), 3)]], as the template
    writes it. *)
Definition heatBlock (intensity : number) : string :=
  match intensity with
  | Finite q =>
      let blockIndex := Z.min (Qfloor (q * 4)) 3 in
      if blockIndex <? 0 then "undefined"
      else nth (Z.to_nat blockIndex) blocks "undefined"%string
  | Infinity false => "█"
  | Infinity true | NaN => "undefined"
  end.

(** One cell of the heatmap. *)
Definition heatCell (maxMsgs : option Z) (day : DailyActivity) : string :=
  let intensity := divide (messageCount day) maxMsgs in
  getHeatColor intensity +:+ heatBlock intensity +:+ c.reset.

(** The [heatmap] row of [printHeatmap(activity, days)]. *)
Definition heatmap (activity : list DailyActivity) (days : nat) : string :=
  let recent := slice_last activity days in
  let maxMsgs := Math_max1 (map messageCount recent) in
  fold_left (fun heatmap day => heatmap +:+ heatCell maxMsgs day) recent EmptyString.

(** [s.repeat(count)] where [count] may be NaN, which counts as 0. *)
Definition String_repeat_number (s : string) (count : option Z) : outcome string :=
  match count with
  | Some n => String_repeat s n
  | None => Ok EmptyString
  end.

(** [makeGradientBar(value, max, width)]. *)
Definition makeGradientBar (value max : option Z) (width : Z) : outcome string :=
  let filled :=
    if js_gt max (Some 0) then
      match divide value max with
      | Finite q => Some (Math_round (q * inject_Z width))
      | _ => None
      end
    else Some 0 in
  let intensity := divide value max in
  let color := getHeatColor intensity in
  full ← String_repeat_number "█" filled;
  rest ← String_repeat_number "░" (match filled with
                                   | Some n => Some (width - n)
                                   | None => None
                                   end);
  Ok (color +:+ full +:+ c.dim +:+ rest +:+ c.reset).

(** The records of a list with their positions. *)
Definition indexed {A : Type} (l : list A) : list (nat * A) :=
  combine (seq 0 (length l)) l.

(** The [peakDay] of [printDailyChart], with its position in [recent]:
    [recent.reduce((max, d) => d.messageCount > max.messageCount ? d : max,
    recent[0])]. *)
Definition peakDay (recent : list DailyActivity) : option (nat * DailyActivity) :=
  match recent with
  | [] => None
  | first :: _ =>
      Some (fold_left
              (fun max d =>
                 if js_gt (messageCount (snd d)) (messageCount (snd max))
                 then d else max)
              (indexed recent) (0%nat, first))
  end.

(** [isPeak] for the row at position [i]: [day === peakDay &&
    day.messageCount > 0]; the records of a parsed array are distinct
    objects, so [===] compares positions. *)
Definition isPeak (recent : list DailyActivity) (i : nat) (day : DailyActivity)
  : bool :=
  match peakDay recent with
  | Some (p, _) => Nat.eqb i p && gt_zero (messageCount day)
  | None => false
  end.

(** The bars of [printDailyChart(activity, days)], one for each row. *)
Definition chartBars (activity : list DailyActivity) (days : nat)
  : list (outcome string) :=
  let recent := slice_last activity days in
  let maxMsgs := Math_max1 (map messageCount recent) in
  map (fun day => makeGradientBar (messageCount day) maxMsgs 25) recent.

(** Every record has a message count, and none is negative. *)
Definition countsPresent (recent : list DailyActivity) : Prop :=
  Forall (fun d => exists n, messageCount d = Some n /\ 0 <= n) recent.

(** The count of a record, 0 when it is missing. *)
Definition count (d : DailyActivity) : Z := or_zero (messageCount d).

(** ** Notions about the process *)

(** A statement that leaves [stderr] and the [showGoals] toggle as they
    are and does not end the process. *)
Definition quiet {A : Type} (m : io A) : Prop :=
  forall p,
    stderr (snd (m p)) = stderr p
    /\ showGoals (snd (m p)) = showGoals p
    /\ forall code, fst (m p) <> Exit code.

(** What [cleanup] writes. *)
Definition goodbye : list string :=
  [showCursor; newline; c.dim +:+ "Goodbye!" +:+ c.reset +:+ newline].

(** The dashboard is asked for: none of [--json], [--compact], [--export]. *)
Definition dashboardMode (flags : Flags) : Prop :=
  jsonOutput flags = false /\ compactOutput flags = false /\ exportFile flags = None.

(** A world with a stats file in which goals are set. *)
Definition goalsWorld : World unit nat :=
  {| STATS_FILE := "/home/user/.claude/stats-cache.json";
     statsFile := Some "{}";
     JSON_parse := fun text => Ok (String.length text);
     loadAuth := None;
     loadGoals := Some {| daily := 500; weekly := 3000; setAt := "2024-10-04" |};
     fetch := fun _ => Throw "fetch failed";
     runCommand := fun _ => mret tt;
     printJSON := fun _ => ([], None);
     printCompact := fun _ => ([], None);
     exportStats := fun _ => ([], None);
     printStats := fun _ _ shown => ([if shown : bool then "goals" else "no goals"], None);
     updateProgressBar := "Next refresh in 30s" |}.

(** ** Colour of a count *)

(** [getActivityColor(value, highThreshold)]. *)
Definition getActivityColor (value highThreshold : Z) : string :=
  let ratio := (inject_Z value / inject_Z highThreshold)%Q in
  if Qltb ratio (1 # 10) then c.dim
  else if Qltb ratio (3 # 10) then c_blue
  else if Qltb ratio (5 # 10) then c_cyan
  else if Qltb ratio (7 # 10) then c.green
  else if Qltb ratio (9 # 10) then c_yellow
  else c_brightRed.

(** The same in double precision; the literals [0.1] ... [0.9] are the
    doubles nearest to the tenths. *)
Definition getActivityColor64 (value highThreshold : Z) : string :=
  let ratio := PrimFloat.div (Binary64.of_Z value) (Binary64.of_Z highThreshold) in
  let tenths k := PrimFloat.div (Binary64.of_Z k) (Binary64.of_Z 10) in
  if PrimFloat.ltb ratio (tenths 1) then c.dim
  else if PrimFloat.ltb ratio (tenths 3) then c_blue
  else if PrimFloat.ltb ratio (tenths 5) then c_cyan
  else if PrimFloat.ltb ratio (tenths 7) then c.green
  else if PrimFloat.ltb ratio (tenths 9) then c_yellow
  else c_brightRed.

(** ** Short numbers *)

(** The integer [n] of [x.toFixed(digits)]: the one for which
    [n / 10^digits] is nearest to the exact value of the double [x], the
    larger one of two; for [x] that is not negative.  The exact value is
    the mantissa [m] times [2^e]; the shifts multiply and divide by powers
    of two, rounding down. *)
Definition toFixed_scaled (x : float) (digits : Z) : option Z :=
  match Prim2SF x with
  | S754_zero _ => Some 0
  | S754_finite false m e =>
      let q := Z.pos m * 10 ^ digits in
      Some (if 0 <=? e then Z.shiftl q e
            else Z.shiftr (2 * q + Z.shiftl 1 (- e)) (- e + 1))
  | _ => None
  end.

(** [x.toFixed(1)] from its integer. *)
Definition show_tenths (n : Z) : string :=
  pretty (n / 10) +:+ "." +:+ pretty (n mod 10).

(** [(n / unit).toFixed(1)] and [(n / unit).toFixed(0)]. *)
Definition toFixed1 (n unit : Z) : string :=
  match toFixed_scaled (PrimFloat.div (Binary64.of_Z n) (Binary64.of_Z unit)) 1 with
  | Some t => show_tenths t
  | None => "NaN"
  end.

Definition toFixed0 (n unit : Z) : string :=
  match toFixed_scaled (PrimFloat.div (Binary64.of_Z n) (Binary64.of_Z unit)) 0 with
  | Some t => pretty t
  | None => "NaN"
  end.

(** [formatNumber(n)] of a count that is not negative. *)
Definition formatNumber (n : Z) : string :=
  if 1000000 <=? n then toFixed1 n 1000000 +:+ "M"
  else if 1000 <=? n then toFixed1 n 1000 +:+ "K"
  else pretty n.

(** [formatTokens(n)] of a count that is not negative. *)
Definition formatTokens (n : Z) : string :=
  if 1000000000 <=? n then toFixed1 n 1000000000 +:+ "B"
  else if 1000000 <=? n then toFixed1 n 1000000 +:+ "M"
  else if 1000 <=? n then toFixed0 n 1000 +:+ "K"
  else pretty n.

(** [check n], [check (n + 1)], ... for [fuel] numbers. *)
Fixpoint allFrom (fuel : nat) (n : Z) (check : Z -> bool) : bool :=
  match fuel with
  | O => true
  | S k => if check n then allFrom k (n + 1) check else false
  end.

(** The thousands of [n] are shown to the nearest tenth. *)
Definition nearestTenth (n : Z) : bool :=
  match toFixed_scaled (PrimFloat.div (Binary64.of_Z n) (Binary64.of_Z 1000)) 1 with
  | Some t => Z.abs (100 * t - n) <=? 50
  | None => false
  end.

(** ** The monthly windows *)

(** [new Date(year, month, day)]: the midnight that opens a calendar day
    in local time, for a local time [tz] milliseconds ahead of UTC. *)
Definition localMidnight (tz day : Z) : Z := newDate day - tz.

(** [getThisMonth(activity, now)]; [firstDay] is the first day of the
    month of [now]. *)
Definition getThisMonth (tz firstDay : Z) (activity : list DailyActivity)
  : list DailyActivity :=
  let monthStart := localMidnight tz firstDay in
  List.filter (fun d => monthStart <=? newDate (date d)) activity.

(** [getLastMonth(activity, now)]; [prevFirstDay] is the first day of the
    month before: [new Date(year, month, 0)] is the day before [firstDay]. *)
Definition getLastMonth (tz prevFirstDay firstDay : Z)
    (activity : list DailyActivity) : list DailyActivity :=
  let lastMonthStart := localMidnight tz prevFirstDay in
  let lastMonthEnd := localMidnight tz (firstDay - 1) in
  List.filter
    (fun d => let date := newDate (date d) in
              (lastMonthStart <=? date) && (date <=? lastMonthEnd))
    activity.

(** * Properties *)

(** ** Calendar arithmetic *)

Lemma MS_PER_DAY_pos : 0 < MS_PER_DAY.
Proof. reflexivity. Qed.

(** The step of [setDate]: [n] days of 24 hours, and the change of offset. *)
Lemma setDateBack_step (tz : TimeZone) (now n : Z) :
  setDateBack tz now n =
  now - n * MS_PER_DAY
  + (LocalTZA tz now true
     - LocalTZA tz (LocalTime tz now - n * MS_PER_DAY) false).
Proof. unfold setDateBack, UTC, LocalTime. ring. Qed.

(** The change of offset is less than two days. *)
Lemma setDateBack_bounds (tz : TimeZone) (now n : Z) :
  now - n * MS_PER_DAY - 2 * MS_PER_DAY < setDateBack tz now n
  < now - n * MS_PER_DAY + 2 * MS_PER_DAY.
Proof.
  rewrite setDateBack_step.
  pose proof (LocalTZA_bound tz now true).
  pose proof (LocalTZA_bound tz (LocalTime tz now - n * MS_PER_DAY) false).
  lia.
Qed.

Lemma setDateBack_sameOffset (tz : TimeZone) (now n : Z) :
  sameOffset tz now n -> setDateBack tz now n = now - n * MS_PER_DAY.
Proof. unfold sameOffset. intros H. rewrite setDateBack_step, H. ring. Qed.

Lemma sameOffset_UTC (now n : Z) : sameOffset Etc_UTC now n.
Proof. reflexivity. Qed.

Lemma formatDate_back (now i : Z) :
  formatDate (now - i * MS_PER_DAY) = formatDate now - i.
Proof.
  unfold formatDate, MS_PER_DAY.
  replace (now - i * 86400000) with (now + (- i) * 86400000) by ring.
  rewrite Z.div_add by lia. ring.
Qed.

Lemma formatDate_setDateBack (tz : TimeZone) (now i : Z) :
  sameOffset tz now i ->
  formatDate (setDateBack tz now i) = formatDate now - i.
Proof. intros H. rewrite (setDateBack_sameOffset _ _ _ H). apply formatDate_back. Qed.

(** An instant against the UTC midnight of a day. *)
Lemma instant_on_calendar (t d : Z) :
  (t <=? newDate d) = (firstDayFrom t <=? d).
Proof.
  unfold firstDayFrom, newDate, formatDate, MS_PER_DAY.
  pose proof (Z.div_mod t 86400000 ltac:(lia)) as Hdm.
  pose proof (Z.mod_pos_bound t 86400000 ltac:(lia)) as Hb.
  destruct (Z.eqb_spec (t mod 86400000) 0) as [E|E];
    apply eq_true_iff_eq; rewrite !Z.leb_le; lia.
Qed.

Lemma firstDayFrom_back (now n : Z) :
  firstDayFrom (now - n * MS_PER_DAY) =
  if now mod MS_PER_DAY =? 0 then formatDate now - n else formatDate now - n + 1.
Proof.
  unfold firstDayFrom. rewrite formatDate_back.
  replace ((now - n * MS_PER_DAY) mod MS_PER_DAY) with (now mod MS_PER_DAY).
  - destruct (now mod MS_PER_DAY =? 0); reflexivity.
  - replace (now - n * MS_PER_DAY) with (now + (- n) * MS_PER_DAY) by ring.
    rewrite Z.mod_add; [reflexivity|]. unfold MS_PER_DAY. lia.
Qed.

(** A cutoff [n] days back without a change of offset, read on the
    calendar: a record passes when its day is later than [n] days before
    today, or is that very day and [now] is its midnight. *)
Lemma cutoff_days_on_calendar (tz : TimeZone) (now n d : Z) :
  sameOffset tz now n ->
  (setDateBack tz now n <=? newDate d) =
  (if now mod MS_PER_DAY =? 0
   then formatDate now - n <=? d
   else formatDate now - n + 1 <=? d).
Proof.
  intros H. rewrite instant_on_calendar, (setDateBack_sameOffset _ _ _ H).
  rewrite firstDayFrom_back. destruct (now mod MS_PER_DAY =? 0); reflexivity.
Qed.

(** A record dated today passes the seven-day cutoff in every zone. *)
Lemma today_after_cutoff (tz : TimeZone) (now : Z) :
  setDateBack tz now 7 <= newDate (formatDate now).
Proof.
  pose proof (setDateBack_bounds tz now 7) as Hb.
  unfold newDate, formatDate in *. unfold MS_PER_DAY in *.
  pose proof (Z.div_mod now 86400000 ltac:(lia)) as Hdm.
  pose proof (Z.mod_pos_bound now 86400000 ltac:(lia)) as Hm.
  lia.
Qed.

(** ** Sums *)

Lemma fold_left_add_shift {A : Type} (f : A -> Z) (l : list A) (a : Z) :
  fold_left (fun sum d => sum + f d) l a = a + sumZ (map f l).
Proof.
  revert a. induction l as [|x l IH]; intros a; simpl.
  - lia.
  - rewrite IH. lia.
Qed.

Lemma messages_sum (data : list DailyActivity) :
  messages (aggregateStats data) = sumZ (map (fun d => or_zero (messageCount d)) data).
Proof. simpl. rewrite fold_left_add_shift. lia. Qed.

Lemma sessions_sum (data : list DailyActivity) :
  sessions (aggregateStats data) = sumZ (map (fun d => or_zero (sessionCount d)) data).
Proof. simpl. rewrite fold_left_add_shift. lia. Qed.

Lemma toolCalls_sum (data : list DailyActivity) :
  toolCalls (aggregateStats data) = sumZ (map (fun d => or_zero (toolCallCount d)) data).
Proof. simpl. rewrite fold_left_add_shift. lia. Qed.

Lemma sumZ_app (xs ys : list Z) : sumZ (xs ++ ys) = sumZ xs + sumZ ys.
Proof. induction xs as [|x xs IH]; simpl; lia. Qed.

Lemma sumZ_map_middle {A : Type} (f : A -> Z) (l1 l2 : list A) (r : A) :
  sumZ (map f (l1 ++ r :: l2)) = sumZ (map f (l1 ++ l2)) + f r.
Proof. rewrite !map_app, !sumZ_app. simpl. lia. Qed.

(** A sub-selection of records with counts that are not negative sums to
    no more than the wider selection. *)
Lemma sum_filter_mono (f : DailyActivity -> Z) (p q : DailyActivity -> bool)
    (l : list DailyActivity) :
  Forall (fun d => 0 <= f d) l ->
  (forall d, p d = true -> q d = true) ->
  sumZ (map f (List.filter p l)) <= sumZ (map f (List.filter q l)).
Proof.
  intros Hpos Hpq. induction Hpos as [|x l Hx _ IH]; simpl.
  - lia.
  - destruct (p x) eqn:Ep.
    + rewrite (Hpq x Ep). simpl. lia.
    + destruct (q x); simpl; lia.
Qed.

Lemma activeDays_middle (l1 l2 : list DailyActivity) (r : DailyActivity) :
  activeDays (aggregateStats (l1 ++ r :: l2)) =
  activeDays (aggregateStats (l1 ++ l2))
  + (if gt_zero (messageCount r) then 1 else 0).
Proof.
  unfold aggregateStats; simpl. rewrite !List.filter_app. simpl.
  destruct (gt_zero (messageCount r)); rewrite !length_app; simpl; lia.
Qed.

(** ** C6 *)

Lemma reduce_field_records (field : DailyActivity -> option Z) (name : string)
    (records : list DailyActivity) (sum : Z) :
  Dynamic.reduce_field field name (map Dynamic.Object records) sum =
  Ok (fold_left (fun sum d => sum + or_zero (field d)) records sum).
Proof.
  revert sum. induction records as [|d records IH]; intros sum; simpl.
  - reflexivity.
  - apply IH.
Qed.

Lemma filter_active_records (records : list DailyActivity) :
  Dynamic.filter_active (map Dynamic.Object records) =
  Ok (map Dynamic.Object (List.filter (fun d => gt_zero (messageCount d)) records)).
Proof.
  induction records as [|d records IH]; simpl.
  - reflexivity.
  - rewrite IH. simpl. destruct (gt_zero (messageCount d)); reflexivity.
Qed.

(** A [null] or [undefined] anywhere in the array makes the first [reduce]
    throw. *)
Lemma reduce_field_missing (field : DailyActivity -> option Z) (name : string)
    (elements : list Dynamic.Element) (sum : Z) (v : Dynamic.Nullish) :
  In (Dynamic.Missing v) elements ->
  exists message, Dynamic.reduce_field field name elements sum = Throw message.
Proof.
  revert sum. induction elements as [|e elements IH]; intros sum Hin.
  - destruct Hin.
  - destruct e as [v'|d]; simpl.
    + eexists. reflexivity.
    + destruct Hin as [Hin|Hin]; [discriminate|]. apply IH, Hin.
Qed.

Lemma elements_records (elements : list Dynamic.Element) :
  (forall v, ~ In (Dynamic.Missing v) elements) ->
  exists records, elements = map Dynamic.Object records.
Proof.
  induction elements as [|e elements IH]; intros Hno.
  - exists []. reflexivity.
  - destruct e as [v|d].
    + exfalso. apply (Hno v). left. reflexivity.
    + destruct IH as [records ->].
      * intros v Hin. apply (Hno v). right. exact Hin.
      * exists (d :: records). reflexivity.
Qed.

Lemma aggregateStats_records (records : list DailyActivity) :
  Dynamic.aggregateStats (Dynamic.Array (map Dynamic.Object records)) =
  Ok (aggregateStats records).
Proof.
  unfold Dynamic.aggregateStats, aggregateStats.
  rewrite !reduce_field_records, filter_active_records. simpl.
  rewrite length_map. reflexivity.
Qed.

(** C6, as the code has it. [aggregateStats] returns on an array exactly
    when the array holds no [null] and no [undefined], and throws on what
    is no array; on an array of records it returns the
    sums and the count, so that on the empty array every statistic is zero,
    a record whose numeric field is missing adds nothing to the sum of that
    field, wherever it stands in the array, and a record adds one to
    [activeDays] when its [messageCount] is present and positive, and
    nothing otherwise. *)
Theorem aggregateStats_on_records :
  (forall data,
     (exists stats, Dynamic.aggregateStats data = Ok stats)
     <-> exists elements,
           data = Dynamic.Array elements
           /\ forall v, ~ In (Dynamic.Missing v) elements)
  /\ (forall records,
        Dynamic.aggregateStats (Dynamic.Array (map Dynamic.Object records)) =
        Ok (aggregateStats records))
  /\ Dynamic.aggregateStats (Dynamic.Array []) =
       Ok {| messages := 0; sessions := 0; toolCalls := 0; activeDays := 0 |}
  /\ (forall l1 r l2,
        (messageCount r = None ->
         messages (aggregateStats (l1 ++ r :: l2)) = messages (aggregateStats (l1 ++ l2)))
        /\ (sessionCount r = None ->
            sessions (aggregateStats (l1 ++ r :: l2)) = sessions (aggregateStats (l1 ++ l2)))
        /\ (toolCallCount r = None ->
            toolCalls (aggregateStats (l1 ++ r :: l2)) = toolCalls (aggregateStats (l1 ++ l2))))
  /\ (forall l1 r l2,
        ((exists n, messageCount r = Some n /\ 0 < n) ->
         activeDays (aggregateStats (l1 ++ r :: l2))
         = activeDays (aggregateStats (l1 ++ l2)) + 1)
        /\ (~ (exists n, messageCount r = Some n /\ 0 < n) ->
            activeDays (aggregateStats (l1 ++ r :: l2))
            = activeDays (aggregateStats (l1 ++ l2)))).
Proof.
  split; [|split; [exact aggregateStats_records|split; [reflexivity|split]]].
  - intros data. split.
    + intros [stats Hok]. destruct data as [v| |elements]; try discriminate Hok.
      exists elements. split; [reflexivity|]. intros v Hin.
      destruct (reduce_field_missing messageCount "messageCount" elements 0 v Hin)
        as [message Hthrow].
      unfold Dynamic.aggregateStats in Hok. rewrite Hthrow in Hok.
      discriminate Hok.
    + intros (elements & -> & Hno).
      destruct (elements_records elements Hno) as [records ->].
      exists (aggregateStats records). apply aggregateStats_records.
  - intros l1 r l2.
    rewrite !messages_sum, !sessions_sum, !toolCalls_sum, !sumZ_map_middle.
    repeat split; intros ->; simpl; lia.
  - intros l1 r l2. rewrite activeDays_middle. split.
    + intros (n & -> & Hn). simpl.
      destruct (Z.ltb_spec 0 n); lia.
    + intros Hno. destruct (messageCount r) as [n|] eqn:E; simpl; [|lia].
      destruct (Z.ltb_spec 0 n); [|lia].
      exfalso. apply Hno. exists n. split; [reflexivity | assumption].
Qed.

Lemma aggregateStats_on_records_witness :
  (exists stats,
     Dynamic.aggregateStats
       (Dynamic.Array [Dynamic.Object (record 1 4 1 0);
                       Dynamic.Object (record 3 6 1 0)]) = Ok stats)
  /\ messages (aggregateStats ([record 1 4 1 0] ++
      {| date := 2; messageCount := None; sessionCount := Some 3;
         toolCallCount := None |} :: [record 3 6 1 0])) = 10
  /\ activeDays (aggregateStats ([] ++ record 1 4 1 0 :: [record 3 6 1 0])) = 2.
Proof.
  split; [|split].
  - apply (proj2 (proj1 aggregateStats_on_records _)).
    eexists. split; [reflexivity|].
    intros v [H|[H|[]]]; discriminate H.
  - rewrite (proj1 (proj1 (proj2 (proj2 (proj2 aggregateStats_on_records)))
       [record 1 4 1 0]
       {| date := 2; messageCount := None; sessionCount := Some 3;
          toolCallCount := None |} [record 3 6 1 0]) eq_refl).
    reflexivity.
  - rewrite (proj1 (proj2 (proj2 (proj2 (proj2 aggregateStats_on_records))) []
       (record 1 4 1 0) [record 3 6 1 0])).
    + reflexivity.
    + exists 4. split; [reflexivity | lia].
Defined.

(** An array that holds [null], and an argument that is no array: the
    function throws. *)
Lemma aggregateStats_raises :
  Dynamic.aggregateStats
    (Dynamic.Array [Dynamic.Object (record 1 4 1 0);
                    Dynamic.Missing Dynamic.null]) =
    Throw "Cannot read properties of null (reading 'messageCount')"
  /\ Dynamic.aggregateStats Dynamic.NotArray =
     Throw "data.reduce is not a function"
  /\ Dynamic.aggregateStats (Dynamic.NoValue Dynamic.undefined) =
     Throw "Cannot read properties of undefined (reading 'reduce')".
Proof. repeat split. Qed.

(** ** C3 *)

(** C3. On a history whose counts are not negative, the messages of the
    last seven days are at least the messages of today: every record
    dated today passes the seven-day cutoff, whatever the time of day and
    the time zone. *)
Theorem last7_messages_ge_today (tz : TimeZone) (now : Z)
    (activity : list DailyActivity) :
  wellFormed activity ->
  messages (aggregateStats (todayRecords now activity))
  <= messages (aggregateStats (getLast7Days tz now activity)).
Proof.
  intros Hwf. rewrite !messages_sum.
  unfold todayRecords, getLast7Days.
  apply sum_filter_mono; [exact Hwf|].
  intros d Hd. apply Z.eqb_eq in Hd.
  apply Z.leb_le. rewrite Hd. apply today_after_cutoff.
Qed.

Lemma last7_messages_ge_today_witness :
  messages (aggregateStats (todayRecords noon20000 [record 20000 7 1 0; sevenBack]))
  <= messages (aggregateStats
                 (getLast7Days Etc_UTC noon20000 [record 20000 7 1 0; sevenBack])).
Proof.
  apply last7_messages_ge_today.
  repeat constructor; simpl; lia.
Defined.

(** ** C2 *)

(** C2, as the code has it. [getLast7Days] keeps exactly the records whose
    UTC midnight is not before the cutoff, the instant of the present local
    time of day seven local calendar days back: the records dated from
    the first day whose midnight is not before the cutoff.  The cutoff is
    seven times 24 hours back, moved by the change of the zone's offset in
    between.  Where the offset is the same at both ends, the records kept
    are those of the last seven days counting today, and the day seven
    days back only when [now] is exactly a UTC midnight. *)
Theorem getLast7Days_by_instant (tz : TimeZone) (now : Z)
    (activity : list DailyActivity) :
  getLast7Days tz now activity =
    List.filter (fun d => firstDayFrom (setDateBack tz now 7) <=? date d) activity
  /\ setDateBack tz now 7 =
       now - 7 * MS_PER_DAY
       + (LocalTZA tz now true
          - LocalTZA tz (LocalTime tz now - 7 * MS_PER_DAY) false)
  /\ (sameOffset tz now 7 ->
      getLast7Days tz now activity =
      List.filter
        (fun d => if now mod MS_PER_DAY =? 0
                  then formatDate now - 7 <=? date d
                  else formatDate now - 6 <=? date d)
        activity).
Proof.
  split; [|split].
  - unfold getLast7Days. apply List.filter_ext.
    intros d. apply instant_on_calendar.
  - apply setDateBack_step.
  - intros Hsame. unfold getLast7Days. apply List.filter_ext.
    intros d. rewrite (cutoff_days_on_calendar _ _ _ _ Hsame).
    destruct (now mod MS_PER_DAY =? 0); [reflexivity|].
    replace (formatDate now - 7 + 1) with (formatDate now - 6) by ring.
    reflexivity.
Qed.

Lemma getLast7Days_by_instant_witness :
  getLast7Days Etc_UTC noon20000 [record 19994 3 1 0; sevenBack] =
  List.filter
    (fun d => if noon20000 mod MS_PER_DAY =? 0
              then formatDate noon20000 - 7 <=? date d
              else formatDate noon20000 - 6 <=? date d)
    [record 19994 3 1 0; sevenBack].
Proof.
  apply (proj2 (proj2 (getLast7Days_by_instant Etc_UTC noon20000
                         [record 19994 3 1 0; sevenBack]))).
  reflexivity.
Defined.

(** At noon UTC, the record dated seven calendar days back is within the
    calendar bound and yet is not returned. *)
Lemma getLast7Days_not_by_calendar_day :
  In sevenBack [sevenBack]
  /\ formatDate noon20000 - 7 <= date sevenBack
  /\ ~ In sevenBack (getLast7Days Etc_UTC noon20000 [sevenBack]).
Proof.
  split; [left; reflexivity|]. split.
  - vm_compute. discriminate.
  - vm_compute. intros [].
Qed.

(** In New York, half an hour after midnight UTC three days after the end
    of daylight time, the cutoff is seven days and one hour back, on the
    UTC day before: the record dated seven days back is returned, which
    under UTC it is not. *)
Lemma getLast7Days_over_offset_change :
  setDateBack America_New_York november6 7 = november6 - 7 * MS_PER_DAY - 3600000
  /\ getLast7Days America_New_York november6 [record 20026 10 1 0]
     = [record 20026 10 1 0]
  /\ getLast7Days Etc_UTC november6 [record 20026 10 1 0] = [].
Proof. repeat split. Qed.

(** ** Streak *)

Lemma find_sort_insert (e : Z) (x : DailyActivity) (l : list DailyActivity) :
  List.find (fun d => date d =? e) (sort_insert x l) =
  if date x =? e then Some x else List.find (fun d => date d =? e) l.
Proof.
  induction l as [|y l IH]; simpl.
  - reflexivity.
  - destruct (Z.ltb_spec (date x) (date y)) as [Hlt|Hge]; simpl.
    + rewrite IH.
      destruct (Z.eqb_spec (date x) e) as [Hx|Hx];
        destruct (Z.eqb_spec (date y) e) as [Hy|Hy]; try reflexivity; lia.
    + reflexivity.
Qed.

(** The sort does not change which record [find] meets first for a date. *)
Lemma find_sort_desc (e : Z) (l : list DailyActivity) :
  List.find (fun d => date d =? e) (sort_desc l) =
  List.find (fun d => date d =? e) l.
Proof.
  induction l as [|x l IH]; simpl.
  - reflexivity.
  - rewrite find_sort_insert, IH. reflexivity.
Qed.

Lemma length_sort_insert (x : DailyActivity) (l : list DailyActivity) :
  length (sort_insert x l) = S (length l).
Proof.
  induction l as [|y l IH]; simpl; [reflexivity|].
  destruct (date x <? date y); simpl; [rewrite IH|]; reflexivity.
Qed.

Lemma length_sort_desc (l : list DailyActivity) :
  length (sort_desc l) = length l.
Proof.
  induction l as [|x l IH]; simpl; [reflexivity|].
  rewrite length_sort_insert, IH. reflexivity.
Qed.

(** One turn of the loop, on the unsorted history. *)
Lemma streak_loop_turn (activity : list DailyActivity) (tz : TimeZone) (now : Z)
    (n : nat) (i streak : Z) :
  streak_loop (sort_desc activity) tz now (formatDate now) (S n) i streak =
  if activeOn activity (formatDate (setDateBack tz now i))
  then streak_loop (sort_desc activity) tz now (formatDate now) n (i + 1) (streak + 1)
  else if (i =? 0) && (formatDate (setDateBack tz now i) =? formatDate now)
  then streak_loop (sort_desc activity) tz now (formatDate now) n (i + 1) streak
  else streak.
Proof. simpl. rewrite find_sort_desc. reflexivity. Qed.

(** The same turn when no change of offset lies between [now] and the day
    it looks at: that day is [i] days before today. *)
Lemma streak_loop_step (activity : list DailyActivity) (tz : TimeZone) (now : Z)
    (n : nat) (i streak : Z) :
  sameOffset tz now i ->
  streak_loop (sort_desc activity) tz now (formatDate now) (S n) i streak =
  if activeOn activity (formatDate now - i)
  then streak_loop (sort_desc activity) tz now (formatDate now) n (i + 1) (streak + 1)
  else if i =? 0
  then streak_loop (sort_desc activity) tz now (formatDate now) n (i + 1) streak
  else streak.
Proof.
  intros Hsame. rewrite streak_loop_turn, (formatDate_setDateBack _ _ _ Hsame).
  destruct (activeOn activity (formatDate now - i)); [reflexivity|].
  destruct (Z.eqb_spec i 0) as [->|Hi]; simpl; [|reflexivity].
  rewrite Z.sub_0_r, Z.eqb_refl. reflexivity.
Qed.

(** A run of [k] active days takes [k] turns and adds [k]. *)
Lemma streak_loop_run (activity : list DailyActivity) (tz : TimeZone) (now : Z)
    (k : nat) :
  forall (n : nat) (i streak : Z),
    (forall j, i <= j < i + Z.of_nat k -> sameOffset tz now j) ->
    (forall j, i <= j < i + Z.of_nat k ->
               activeOn activity (formatDate now - j) = true) ->
    streak_loop (sort_desc activity) tz now (formatDate now) (k + n) i streak =
    streak_loop (sort_desc activity) tz now (formatDate now) n
                (i + Z.of_nat k) (streak + Z.of_nat k).
Proof.
  induction k as [|k IH]; intros n i streak Hsame Hrun.
  - simpl. rewrite !Z.add_0_r. reflexivity.
  - change (S k + n)%nat with (S (k + n)).
    rewrite streak_loop_step, (Hrun i) by (try apply Hsame; lia).
    rewrite IH by (intros j Hj; try apply Hsame; try apply Hrun; lia).
    f_equal; lia.
Qed.

(** With today's record present: [K] active days ending today, then a day
    without messages, give [K], the history having at least [K] records. *)
Lemma calculateStreak_today_present (tz : TimeZone) (now : Z)
    (activity : list DailyActivity) (K : nat) :
  (forall j, 0 <= j <= Z.of_nat K -> sameOffset tz now j) ->
  (forall j, 0 <= j < Z.of_nat K ->
             activeOn activity (formatDate now - j) = true) ->
  activeOn activity (formatDate now - Z.of_nat K) = false ->
  (1 <= K <= length activity)%nat ->
  calculateStreak tz now activity = Z.of_nat K.
Proof.
  intros Hsame Hrun Hstop Hlen. unfold calculateStreak.
  rewrite length_sort_desc.
  replace (length activity) with (K + (length activity - K))%nat by lia.
  rewrite streak_loop_run
    by (intros j Hj; try apply Hsame; try apply Hrun; lia).
  destruct (length activity - K)%nat as [|n]; [reflexivity|].
  rewrite streak_loop_step, !Z.add_0_l, Hstop by (apply Hsame; lia).
  destruct (Z.eqb_spec (Z.of_nat K) 0); [lia | reflexivity].
Qed.

(** With today's record absent, the turn spent on today is lost: [K]
    active days before today give [K] only if the history holds more than
    [K] records, and one less than its length otherwise. *)
Lemma calculateStreak_today_pending (tz : TimeZone) (now : Z)
    (activity : list DailyActivity) (K : nat) :
  (forall j, 0 <= j <= Z.of_nat K + 1 -> sameOffset tz now j) ->
  activeOn activity (formatDate now) = false ->
  (forall j, 1 <= j <= Z.of_nat K ->
             activeOn activity (formatDate now - j) = true) ->
  activeOn activity (formatDate now - (Z.of_nat K + 1)) = false ->
  calculateStreak tz now activity =
  Z.min (Z.of_nat K) (Z.of_nat (length activity - 1)).
Proof.
  intros Hsame Htoday Hrun Hstop. unfold calculateStreak.
  rewrite length_sort_desc.
  destruct (length activity) as [|n] eqn:Hlen; [simpl; lia|].
  rewrite streak_loop_step by (apply Hsame; lia).
  rewrite Z.sub_0_r, Htoday, Z.eqb_refl, !Z.add_0_l.
  replace (S n - 1)%nat with n by lia.
  destruct (le_lt_dec K n) as [Hle|Hgt].
  - replace n with (K + (n - K))%nat at 1 by lia.
    rewrite streak_loop_run
      by (intros j Hj; try apply Hsame; try apply Hrun; lia).
    destruct (n - K)%nat as [|m] eqn:Hm.
    + simpl. lia.
    + rewrite streak_loop_step by (apply Hsame; lia).
      replace (1 + Z.of_nat K) with (Z.of_nat K + 1) by lia.
      rewrite Hstop.
      destruct (Z.eqb_spec (Z.of_nat K + 1) 0); lia.
  - replace n with (n + 0)%nat at 1 by lia.
    rewrite streak_loop_run
      by (intros j Hj; try apply Hsame; try apply Hrun; lia).
    simpl. lia.
Qed.

(** ** C1 *)

(** C1, at the input where the code departs from it. The history holds one
    record, yesterday's, with five messages; today has no record.  The
    streak law gives 1; [calculateStreak] returns 0: the loop runs
    [sorted.length] times, and its only turn is spent on today. *)
Theorem calculateStreak_only_yesterday :
  absentOn onlyYesterday (formatDate noon20000)
  /\ activeOn onlyYesterday (formatDate noon20000 - 1) = true
  /\ calculateStreak Etc_UTC noon20000 onlyYesterday = 0.
Proof. repeat split. Qed.

(** ** Exact quotients *)

Lemma Qltb_lt (x y : Q) : Qltb x y = true <-> (x < y)%Q.
Proof.
  unfold Qltb. rewrite negb_true_iff, <- not_true_iff_false, Qle_bool_iff.
  split; [apply Qnot_le_lt | apply Qlt_not_le].
Qed.

Lemma Qltb_ge (x y : Q) : Qltb x y = false <-> (y <= x)%Q.
Proof.
  unfold Qltb. rewrite negb_false_iff. apply Qle_bool_iff.
Qed.

(** [(a / p) * 100] against a bound [b], for a positive [p]. *)
Lemma percent_gt (a p b : Z) :
  0 < p ->
  (inject_Z b < inject_Z a / inject_Z p * 100)%Q <-> b * p < 100 * a.
Proof.
  intros Hp. destruct p as [|p|p]; try lia.
  unfold Qlt, Qdiv, Qmult, Qinv, inject_Z. simpl.
  rewrite !Pos.mul_1_r. lia.
Qed.

Lemma percent_lt (a p b : Z) :
  0 < p ->
  (inject_Z a / inject_Z p * 100 < inject_Z b)%Q <-> 100 * a < b * p.
Proof.
  intros Hp. destruct p as [|p|p]; try lia.
  unfold Qlt, Qdiv, Qmult, Qinv, inject_Z. simpl.
  rewrite !Pos.mul_1_r. lia.
Qed.

Lemma percent_le (a p b : Z) :
  0 < p ->
  (inject_Z a / inject_Z p * 100 <= inject_Z b)%Q <-> 100 * a <= b * p.
Proof.
  intros Hp. destruct p as [|p|p]; try lia.
  unfold Qle, Qdiv, Qmult, Qinv, inject_Z. simpl.
  rewrite !Pos.mul_1_r. lia.
Qed.

(** [getTrend] by cases, on integers. *)
Lemma getTrend_cases (current previous : Z) :
  0 < previous ->
  getTrend current previous =
  if previous <? 10 * (current - previous) then upMarker
  else if 10 * (current - previous) <? - previous then downMarker
  else steadyMarker.
Proof.
  intros Hp. unfold getTrend.
  destruct (Z.eqb_spec previous 0) as [|_]; [lia|].
  pose proof (percent_gt (current - previous) previous 10 Hp) as Hup.
  pose proof (percent_lt (current - previous) previous (-10) Hp) as Hdown.
  change (inject_Z 10) with 10%Q in Hup.
  change (inject_Z (-10)) with (-10)%Q in Hdown.
  destruct (Qltb 10 _) eqn:E1.
  - apply Qltb_lt in E1. apply Hup in E1.
    destruct (Z.ltb_spec previous (10 * (current - previous))); [reflexivity | lia].
  - apply Qltb_ge in E1.
    destruct (Z.ltb_spec previous (10 * (current - previous))) as [H1|H1].
    { exfalso. apply (Qle_not_lt _ _ E1). apply Hup. lia. }
    destruct (Qltb _ (-10)) eqn:E2.
    + apply Qltb_lt in E2. apply Hdown in E2.
      destruct (Z.ltb_spec (10 * (current - previous)) (- previous)); [reflexivity | lia].
    + apply Qltb_ge in E2.
      destruct (Z.ltb_spec (10 * (current - previous)) (- previous)) as [H2|H2];
        [|reflexivity].
      exfalso. apply (Qle_not_lt _ _ E2). apply Hdown. lia.
Qed.

(** ** C4 *)

(** C4. For window totals [current] and [previous >= 0]: with no previous
    data the marker is neutral (the blank); when [current] is more than
    10% above [previous] it is the up arrow; when more than 10% below, the
    down arrow; otherwise it is neutral (the steady arrow).  So
    [getTrend(100,100)] and [getTrend(95,100)] are neutral,
    [getTrend(111,100)] is up and [getTrend(89,100)] is down. *)
Theorem getTrend_bands (current previous : Z) :
  0 <= previous ->
  (previous = 0 -> neutral (getTrend current previous))
  /\ (previous < 10 * (current - previous) -> 0 < previous ->
      getTrend current previous = upMarker)
  /\ (previous < 10 * (previous - current) -> 0 < previous ->
      getTrend current previous = downMarker)
  /\ (0 < previous ->
      10 * (current - previous) <= previous ->
      10 * (previous - current) <= previous ->
      neutral (getTrend current previous))
  /\ neutral (getTrend 100 100) /\ neutral (getTrend 95 100)
  /\ getTrend 111 100 = upMarker /\ getTrend 89 100 = downMarker.
Proof.
  intros Hp. split; [|split; [|split; [|split]]].
  - intros ->. left. reflexivity.
  - intros Hup Hpos. rewrite getTrend_cases by assumption.
    destruct (Z.ltb_spec previous (10 * (current - previous))); [reflexivity | lia].
  - intros Hdown Hpos. rewrite getTrend_cases by assumption.
    destruct (Z.ltb_spec previous (10 * (current - previous))); [lia|].
    destruct (Z.ltb_spec (10 * (current - previous)) (- previous)); [reflexivity | lia].
  - intros Hpos H1 H2. right. rewrite getTrend_cases by assumption.
    destruct (Z.ltb_spec previous (10 * (current - previous))); [lia|].
    destruct (Z.ltb_spec (10 * (current - previous)) (- previous)); [lia | reflexivity].
  - repeat split; try (right; reflexivity); reflexivity.
Qed.

Lemma getTrend_bands_witness :
  getTrend 150 120 = upMarker /\ getTrend 60 120 = downMarker
  /\ neutral (getTrend 7 0) /\ neutral (getTrend 120 120).
Proof.
  pose proof (getTrend_bands 150 120 ltac:(lia)) as (_ & Hup & _).
  pose proof (getTrend_bands 60 120 ltac:(lia)) as (_ & _ & Hdown & _).
  pose proof (getTrend_bands 7 0 ltac:(lia)) as (Hnone & _).
  pose proof (getTrend_bands 120 120 ltac:(lia)) as (_ & _ & _ & Hsteady & _).
  split; [apply Hup; lia|]. split; [apply Hdown; lia|].
  split; [apply Hnone; reflexivity | apply Hsteady; lia].
Defined.

(** The two neutral markers are different strings. *)
Lemma noTrend_not_steady : noTrend <> steadyMarker.
Proof. discriminate. Qed.

(** In double precision [getTrend] decides as in exact arithmetic, on
    every pair of totals up to 160 and 400. *)
Lemma getTrend_binary64_agrees :
  forallb (fun previous =>
    forallb (fun current =>
      String.eqb (Binary64.getTrend current previous) (getTrend current previous))
      (seqZ 0 401))
    (seqZ 0 161) = true.
Proof. vm_compute. reflexivity. Qed.

(** ** Goals *)

Lemma Math_round_100 : Math_round 100 = 100.
Proof. reflexivity. Qed.

(** In exact arithmetic the percentage of the status is the specified one. *)
Lemma Math_round_goalPct (msgs goal : Z) :
  0 <= msgs -> 0 < goal ->
  Math_round (goalPct msgs goal) = specPercent msgs goal.
Proof.
  intros Hm Hg. unfold goalPct, Math_min, specPercent.
  destruct (Qle_bool _ 100) eqn:E.
  - apply Qle_bool_iff in E.
    change 100%Q with (inject_Z 100) in E at 2.
    apply percent_le in E; [|assumption].
    destruct goal as [|g|g]; try lia.
    unfold Math_round, Qfloor, Qdiv, Qmult, Qinv, Qplus, inject_Z. simpl.
    match goal with
    | |- ?n / ?d = _ =>
        replace n with (2 * (100 * msgs) + Z.pos g) by lia;
        replace d with (2 * Z.pos g) by lia
    end.
    symmetry. apply Z.min_r.
    apply Z.lt_succ_r. apply Z.div_lt_upper_bound; lia.
  - assert (100 < inject_Z msgs / inject_Z goal * 100)%Q as E'.
    { apply Qnot_le_lt. intros H. apply Qle_bool_iff in H. congruence. }
    change 100%Q with (inject_Z 100) in E' at 1.
    apply percent_gt in E'; [|assumption].
    rewrite Math_round_100. symmetry. apply Z.min_l.
    apply Z.div_le_lower_bound; lia.
Qed.

(** ** C5 *)

(** C5, at an input where the code departs from it. With 23 messages
    against a goal of 40 the exact percentage is 57.5 and rounds to 58.
    The code forms [(23 / 40) * 100] in double precision, which is
    57.49999999999999, so the status printed is 57%. The goal is not met
    on either side. *)
Theorem goalStatus_binary64_tie :
  specPercent 23 40 = 58
  /\ Math_round (goalPct 23 40) = 58
  /\ Binary64.Math_round (Binary64.goalPct 23 40) = Some 57
  /\ Binary64.goalStatus 23 40 = "57%"%string.
Proof. repeat split; vm_compute; reflexivity. Qed.

(** The two boundary cases of the specification hold in both models. *)
Lemma goalStatus_boundaries :
  goalStatus 0 100 = "0%"%string
  /\ Binary64.goalStatus 0 100 = "0%"%string
  /\ goalStatus 150 100 = (c.green +:+ "✓" +:+ c.reset)%string
  /\ Binary64.goalStatus 150 100 = (c.green +:+ "✓" +:+ c.reset)%string
  /\ Qeq (goalPct 150 100) 100
  /\ Binary64.Math_round (Binary64.goalPct 150 100) = Some 100.
Proof. repeat split; vm_compute; reflexivity. Qed.

(** ** Token totals *)

Lemma reduce_sum_sumZ (xs : list Z) : reduce_sum xs = sumZ xs.
Proof.
  unfold reduce_sum.
  enough (forall a, fold_left Z.add xs a = a + sumZ xs) as H by apply (H 0).
  induction xs as [|x xs IH]; intros a; simpl; [|rewrite IH]; lia.
Qed.

Lemma sumZ_Permutation (xs ys : list Z) : xs ≡ₚ ys -> sumZ xs = sumZ ys.
Proof.
  induction 1 as [|x xs ys _ IH|x y xs|xs ys zs _ IH1 _ IH2]; simpl; lia.
Qed.

Lemma sumValues_empty : sumValues ∅ = 0.
Proof. unfold sumValues. rewrite map_to_list_empty. reflexivity. Qed.

Lemma sumValues_insert_fresh (totals : gmap string Z) (model : string) (n : Z) :
  totals !! model = None ->
  sumValues (<[model := n]> totals) = n + sumValues totals.
Proof.
  intros Hfresh. unfold sumValues. rewrite !reduce_sum_sumZ.
  rewrite (sumZ_Permutation _ (map snd ((model, n) :: map_to_list totals))).
  - reflexivity.
  - apply Permutation_map, map_to_list_insert, Hfresh.
Qed.

Lemma sumValues_delete (totals : gmap string Z) (model : string) (n : Z) :
  totals !! model = Some n ->
  sumValues totals = n + sumValues (delete model totals).
Proof.
  intros Hin.
  rewrite <- (sumValues_insert_fresh (delete model totals) model n)
    by apply lookup_delete_eq.
  rewrite insert_delete_id by exact Hin. reflexivity.
Qed.

(** One assignment [totals[model] = (totals[model] || 0) + tokens] adds
    [tokens] to the sum of the values. *)
Lemma sumValues_add_tokens (totals : gmap string Z) (e : string * Z) :
  sumValues (add_tokens totals e) = sumValues totals + snd e.
Proof.
  destruct e as [model tokens]. unfold add_tokens. simpl.
  destruct (totals !! model) as [n|] eqn:E; simpl.
  - rewrite <- insert_delete_eq.
    rewrite sumValues_insert_fresh by apply lookup_delete_eq.
    rewrite (sumValues_delete totals model n E). lia.
  - rewrite sumValues_insert_fresh by exact E. lia.
Qed.

Lemma sumValues_entries (es : list (string * Z)) :
  forall totals,
    sumValues (fold_left add_tokens es totals) = sumValues totals + sumZ (map snd es).
Proof.
  induction es as [|e es IH]; intros totals; simpl.
  - lia.
  - rewrite IH, sumValues_add_tokens. lia.
Qed.

Lemma sumValues_accumulate (days : list DailyModelTokens) :
  forall totals,
    sumValues (accumulate days totals) = sumValues totals + sumZ (map dayTokens days).
Proof.
  unfold accumulate.
  induction days as [|day days IH]; intros totals; simpl.
  - lia.
  - rewrite IH, sumValues_entries. unfold dayTokens. lia.
Qed.

(** ** Token totals of one model *)

Lemma lookup_add_tokens (totals : gmap string Z) (e : string * Z) (model : string) :
  add_tokens totals e !! model =
  if String.eqb (fst e) model
  then Some (or_zero (totals !! model) + snd e)
  else totals !! model.
Proof.
  destruct e as [m tokens]. unfold add_tokens. simpl.
  destruct (String.eqb_spec m model) as [->|Hne].
  - apply lookup_insert_eq.
  - apply lookup_insert_ne, Hne.
Qed.

(** A day on which the model does not appear has no tokens of it. *)
Lemma modelTokens_absent (model : string) (es : list (string * Z)) :
  existsb (fun e => String.eqb (fst e) model) es = false ->
  modelTokens model es = 0.
Proof.
  induction es as [|[m tokens] es IH]; simpl; [reflexivity|].
  destruct (String.eqb m model); simpl; [discriminate|].
  intros H. rewrite IH by exact H. lia.
Qed.

Lemma lookup_entries (model : string) (es : list (string * Z)) :
  forall totals,
    fold_left add_tokens es totals !! model =
    if existsb (fun e => String.eqb (fst e) model) es
    then Some (or_zero (totals !! model) + modelTokens model es)
    else totals !! model.
Proof.
  induction es as [|[m tokens] es IH]; intros totals.
  - reflexivity.
  - cbn [fold_left existsb modelTokens fst].
    rewrite IH, lookup_add_tokens. cbn [fst snd].
    destruct (String.eqb m model); simpl.
    + destruct (existsb _ es) eqn:E; simpl; f_equal.
      * lia.
      * rewrite (modelTokens_absent model es E). lia.
    + destruct (existsb _ es); simpl; [f_equal; lia | reflexivity].
Qed.

(** Days on which the model does not appear add nothing to its sum. *)
Lemma modelTokens_days (model : string) (days : list DailyModelTokens) :
  sumZ (map (fun day => modelTokens model (entries day))
            (List.filter (appears model) days)) =
  sumZ (map (fun day => modelTokens model (entries day)) days).
Proof.
  induction days as [|day days IH]; simpl; [reflexivity|].
  destruct (appears model day) eqn:E; simpl; rewrite IH; [reflexivity|].
  unfold appears in E. rewrite (modelTokens_absent model _ E). lia.
Qed.

Lemma filter_appears_nil (model : string) (days : list DailyModelTokens) :
  existsb (appears model) days = false -> List.filter (appears model) days = [].
Proof.
  induction days as [|day days IH]; simpl; [reflexivity|].
  destruct (appears model day); simpl; [discriminate | exact IH].
Qed.

Lemma lookup_accumulate (model : string) (days : list DailyModelTokens) :
  forall totals,
    accumulate days totals !! model =
    if existsb (appears model) days
    then Some (or_zero (totals !! model)
               + sumZ (map (fun day => modelTokens model (entries day))
                           (List.filter (appears model) days)))
    else totals !! model.
Proof.
  intros totals. rewrite modelTokens_days. revert totals.
  unfold accumulate.
  induction days as [|day days IH]; intros totals; simpl.
  - reflexivity.
  - rewrite IH, lookup_entries. fold (appears model day).
    destruct (appears model day) eqn:Eday; simpl.
    + destruct (existsb (appears model) days) eqn:E; simpl; f_equal; [lia|].
      rewrite <- modelTokens_days, (filter_appears_nil model days E). simpl. lia.
    + unfold appears in Eday. rewrite (modelTokens_absent model _ Eday).
      destruct (existsb (appears model) days); [f_equal; lia | reflexivity].
Qed.

(** ** The date filter *)

Lemma dateSet_dated (dates : list DailyActivity) (day : DailyModelTokens) :
  bool_decide (tdate day ∈ (list_to_set (map date dates) : gset Z)) = dated dates day.
Proof.
  unfold dated. apply eq_true_iff_eq.
  rewrite bool_decide_eq_true, elem_of_list_to_set, list_elem_of_In.
  rewrite in_map_iff, existsb_exists.
  split; intros (a & H1 & H2); exists a.
  - split; [exact H2 | apply Z.eqb_eq, H1].
  - split; [apply Z.eqb_eq, H2 | exact H1].
Qed.

Lemma aggregateTokens_accumulate (tokenData : list DailyModelTokens)
    (dates : list DailyActivity) :
  aggregateTokens tokenData dates =
  {| total := sumValues (accumulate (List.filter (dated dates) tokenData) ∅);
     byModel := accumulate (List.filter (dated dates) tokenData) ∅ |}.
Proof.
  unfold aggregateTokens.
  rewrite (List.filter_ext _ (dated dates) (dateSet_dated dates)).
  reflexivity.
Qed.

(** ** C7 *)

(** C7. [aggregateTokens] reads only the token records whose date is the
    date of a record of [dates]: taking a record of another date out of
    the token series changes neither the totals per model nor the overall
    total; a model has a total exactly when it appears on a day in scope,
    and that total is the sum of its tokens over the days in scope on
    which it appears; the overall total is the sum of the tokens of the
    days in scope. *)
Theorem aggregateTokens_scoped (tokenData : list DailyModelTokens)
    (dates : list DailyActivity) :
  (forall before day after,
      tokenData = before ++ day :: after ->
      ~ In (tdate day) (map date dates) ->
      aggregateTokens tokenData dates = aggregateTokens (before ++ after) dates)
  /\ (forall model,
        byModel (aggregateTokens tokenData dates) !! model =
        let days := List.filter (appears model) (List.filter (dated dates) tokenData) in
        match days with
        | [] => None
        | _ => Some (sumZ (map (fun day => modelTokens model (entries day)) days))
        end)
  /\ total (aggregateTokens tokenData dates) =
     sumZ (map dayTokens (List.filter (dated dates) tokenData)).
Proof.
  split; [|split].
  - intros before day after -> Hout.
    rewrite !aggregateTokens_accumulate, !List.filter_app. simpl.
    replace (dated dates day) with false; [reflexivity|].
    symmetry. apply not_true_iff_false. intros Hin. apply Hout.
    unfold dated in Hin. apply existsb_exists in Hin as (a & Ha & Heq).
    apply in_map_iff. exists a. split; [apply Z.eqb_eq, Heq | exact Ha].
  - intros model. rewrite aggregateTokens_accumulate. simpl.
    rewrite lookup_accumulate, lookup_empty. simpl.
    induction (List.filter (dated dates) tokenData) as [|day days IH]; simpl.
    + reflexivity.
    + destruct (appears model day); simpl; [reflexivity|]. exact IH.
  - rewrite aggregateTokens_accumulate. simpl.
    rewrite sumValues_accumulate, sumValues_empty. lia.
Qed.

Lemma aggregateTokens_scoped_witness :
  aggregateTokens [tokensA; tokensC; tokensB] activityAB =
  aggregateTokens [tokensA; tokensB] activityAB
  /\ total (aggregateTokens [tokensA; tokensC; tokensB] activityAB) = 820.
Proof.
  split.
  - apply (proj1 (aggregateTokens_scoped [tokensA; tokensC; tokensB] activityAB)
             [tokensA] tokensC [tokensB] eq_refl).
    simpl. intros [H|[H|[]]]; discriminate H.
  - rewrite (proj2 (proj2 (aggregateTokens_scoped [tokensA; tokensC; tokensB]
                                                   activityAB))).
    reflexivity.
Defined.

(** ** C10 *)

Lemma elements_dom_keys (totals : gmap string Z) :
  elements (dom totals) ≡ₚ map fst (map_to_list totals).
Proof.
  apply NoDup_Permutation.
  - apply NoDup_elements.
  - apply (NoDup_fst_map_to_list totals).
  - intros model. rewrite elem_of_elements, elem_of_dom.
    rewrite list_elem_of_In, in_map_iff. split.
    + intros [n Hn]. exists (model, n). split; [reflexivity|].
      apply list_elem_of_In, elem_of_map_to_list, Hn.
    + intros ([m n] & Hm & Hin). simpl in Hm. subst m. exists n.
      apply elem_of_map_to_list, list_elem_of_In, Hin.
Qed.

Lemma values_by_lookup (totals : gmap string Z) (l : list (string * Z)) :
  (forall model n, In (model, n) l -> totals !! model = Some n) ->
  map (fun model => or_zero (totals !! model)) (map fst l) = map snd l.
Proof.
  induction l as [|[model n] l IH]; intros Hl; simpl; [reflexivity|].
  rewrite (Hl model n) by (left; reflexivity). simpl. f_equal.
  apply IH. intros m k Hin. apply Hl. right. exact Hin.
Qed.

(** The sum of the values of a map is the sum of its lookups over its keys. *)
Lemma sumValues_over_keys (totals : gmap string Z) :
  sumValues totals =
  sumZ (map (fun model => or_zero (totals !! model)) (elements (dom totals))).
Proof.
  unfold sumValues. rewrite reduce_sum_sumZ.
  rewrite (sumZ_Permutation _ _
             (Permutation_map (fun model => or_zero (totals !! model))
                              (elements_dom_keys totals))).
  rewrite values_by_lookup; [reflexivity|].
  intros model n Hin. apply elem_of_map_to_list, list_elem_of_In, Hin.
Qed.

(** C10. The [total] that [aggregateTokens] returns is the sum, over the
    models of the [byModel] it returns, of their totals. *)
Theorem aggregateTokens_total_sum_of_models (tokenData : list DailyModelTokens)
    (dates : list DailyActivity) :
  total (aggregateTokens tokenData dates) =
  sumZ (map (fun model => or_zero (byModel (aggregateTokens tokenData dates) !! model))
            (elements (dom (byModel (aggregateTokens tokenData dates))))).
Proof.
  rewrite aggregateTokens_accumulate. simpl. apply sumValues_over_keys.
Qed.

(** ** Quota fetch *)

Section QuotaFacts.
Context {Json : Type}.
Implicit Types (fetch : Request -> outcome (Response Json)) (auth : option Auth).

Lemma ok_status (response : Response Json) :
  ok response = true <-> 200 <= status response <= 299.
Proof. unfold ok. rewrite andb_true_iff, !Z.leb_le. reflexivity. Qed.

(** C8. [fetchQuota] always returns: for every credential and every
    behaviour of the network its result is a value, never an exception.
    When the request fails in transport, when the response is not 2xx, and
    when the body of a 2xx response is not JSON, the value is [null]. *)
Theorem fetchQuota_never_throws fetch auth :
  (exists quota, fetchQuota fetch auth = Ok quota)
  /\ (forall a message,
        auth = Some a -> fetch (quotaRequest a) = Throw message ->
        fetchQuota fetch auth = Ok None)
  /\ (forall a response,
        auth = Some a -> fetch (quotaRequest a) = Ok response ->
        ~ (200 <= status response <= 299) ->
        fetchQuota fetch auth = Ok None)
  /\ (forall a response message,
        auth = Some a -> fetch (quotaRequest a) = Ok response ->
        json response = Throw message ->
        fetchQuota fetch auth = Ok None).
Proof.
  unfold fetchQuota. split; [|split; [|split]].
  - destruct auth as [a|]; [|eexists; reflexivity].
    destruct (negb _); [eexists; reflexivity|].
    destruct (fetch (quotaRequest a)) as [response|message]; simpl;
      [|eexists; reflexivity].
    destruct (ok response); simpl; [|eexists; reflexivity].
    destruct (json response); simpl; eexists; reflexivity.
  - intros a message -> Hfetch. rewrite Hfetch.
    destruct (negb _); reflexivity.
  - intros a response -> Hfetch Hstatus. rewrite Hfetch.
    destruct (negb _); [reflexivity|]. simpl.
    destruct (ok response) eqn:E; [|reflexivity].
    apply ok_status in E. contradiction.
  - intros a response message -> Hfetch Hjson. rewrite Hfetch.
    destruct (negb _); [reflexivity|]. simpl.
    destruct (ok response); [|reflexivity].
    rewrite Hjson. reflexivity.
Qed.

(** A credential that is absent or not OAuth gives [null] without a
    request. *)
Lemma fetchQuota_not_oauth fetch auth :
  (forall a, auth = Some a -> type a <> "oauth"%string) ->
  fetchQuota fetch auth = Ok None.
Proof.
  intros Hno. unfold fetchQuota. destruct auth as [a|]; [|reflexivity].
  destruct (String.eqb_spec (type a) "oauth") as [E|_]; [|reflexivity].
  exfalso. exact (Hno a eq_refl E).
Qed.

(** A 2xx response with a JSON body is returned as it is. *)
Lemma fetchQuota_success fetch (a : Auth) (response : Response Json) (body : Json) :
  type a = "oauth"%string ->
  fetch (quotaRequest a) = Ok response ->
  200 <= status response <= 299 ->
  json response = Ok body ->
  fetchQuota fetch (Some a) = Ok (Some body).
Proof.
  intros Htype Hfetch Hstatus Hjson. unfold fetchQuota.
  rewrite Htype, Hfetch. simpl.
  apply ok_status in Hstatus. rewrite Hstatus, Hjson. reflexivity.
Qed.

End QuotaFacts.

Lemma fetchQuota_never_throws_witness :
  fetchQuota (Json := unit) (fun _ => Throw "fetch failed")
             (Some {| type := "oauth"; accessToken := Some "token" |}) = Ok None
  /\ fetchQuota (Json := unit)
                (fun _ => Ok {| status := 401; json := Ok tt |})
                (Some {| type := "oauth"; accessToken := None |}) = Ok None.
Proof.
  split.
  - apply (proj1 (proj2 (fetchQuota_never_throws (Json := unit)
                           (fun _ => Throw "fetch failed")
                           (Some {| type := "oauth"; accessToken := Some "token" |})))
             {| type := "oauth"; accessToken := Some "token" |} "fetch failed");
      reflexivity.
  - apply (proj1 (proj2 (proj2 (fetchQuota_never_throws (Json := unit)
                           (fun _ => Ok {| status := 401; json := Ok tt |})
                           (Some {| type := "oauth"; accessToken := None |}))))
             {| type := "oauth"; accessToken := None |}
             {| status := 401; json := Ok tt |});
      [reflexivity | reflexivity | simpl; lia].
Defined.

(** ** Render and the event loop *)

Section ProgramFacts.
Context {Json Data : Type}.
Implicit Types (flags : Flags) (w : World Json Data) (p : Process).

(** The [try] block of [render] ends normally or by an exception. *)
Lemma draw_no_exit (d : Drawing) p (code : Z) : fst (draw d p) <> Exit code.
Proof. unfold draw. destruct (snd d); simpl; discriminate. Qed.

Lemma lift_no_exit {A : Type} (o : outcome A) p (code : Z) :
  fst (lift o p) <> Exit code.
Proof. destruct o; simpl; discriminate. Qed.

(** In watch mode [render] ends normally, whatever it finds. *)
Lemma render_watch_normal flags w p :
  watchMode flags = true ->
  exists p', render flags w p = (Normal tt, p').
Proof.
  intros Hwatch. unfold render, io_try_catch.
  match goal with |- context [match ?body p with _ => _ end] =>
    destruct (body p) as [[[]|message|code] p'] eqn:Ebody end.
  - eexists; reflexivity.
  - rewrite Hwatch. eexists; reflexivity.
  - exfalso. revert Ebody. unfold mbind, io_bind.
    destruct (lift (readFileSync w) p) as [[text|m|k] p1] eqn:E1;
      try discriminate;
      [|intros _; exact (lift_no_exit _ _ k (f_equal fst E1))].
    destruct (lift (JSON_parse w text) p1) as [[data|m|k] p2] eqn:E2;
      try discriminate;
      [|intros _; exact (lift_no_exit _ _ k (f_equal fst E2))].
    match goal with |- context [match ?q p2 with _ => _ end] =>
      destruct (q p2) as [[quota|m|k] p3] eqn:E3 end;
      try discriminate.
    + destruct (jsonOutput flags);
        [intros H; exact (draw_no_exit _ _ code (f_equal fst H))|].
      destruct (compactOutput flags);
        [intros H; exact (draw_no_exit _ _ code (f_equal fst H))|].
      destruct (bool_decide _);
        [intros H; exact (draw_no_exit _ _ code (f_equal fst H))|].
      rewrite Hwatch. simpl.
      intros H; exact (draw_no_exit _ _ code (f_equal fst H)).
    + intros _. revert E3.
      destruct (loadAuth w) as [a|]; [|discriminate].
      destruct (String.eqb (type a) "oauth"); [|discriminate].
      intros E3. exact (lift_no_exit _ _ k (f_equal fst E3)).
Qed.

Lemma append_assoc (s t u : string) : ((s +:+ t) +:+ u = s +:+ (t +:+ u))%string.
Proof.
  induction s as [|a s IH]; [reflexivity|].
  change (String a ((s +:+ t) +:+ u) = String a (s +:+ (t +:+ u))).
  rewrite IH. reflexivity.
Qed.

Lemma errorLine_written (message : string) :
  ((c.red +:+ "Error: " +:+ message +:+ c.reset) +:+ newline)%string
  = errorLine message.
Proof. unfold errorLine. rewrite !append_assoc. reflexivity. Qed.

(** With the stats file missing, [render] reports the error; it goes on in
    watch mode and exits with status 1 otherwise. *)
Lemma render_missing_file flags w p :
  statsFile w = None ->
  render flags w p =
  (if watchMode flags then Normal tt else Exit 1,
   {| stdout := stdout p; stderr := stderr p ++ [errorLine (ENOENT (STATS_FILE w))];
      showGoals := showGoals p |}).
Proof.
  intros Hmissing. rewrite <- (errorLine_written (ENOENT (STATS_FILE w))).
  unfold render, io_try_catch, readFileSync.
  rewrite Hmissing. simpl.
  destruct (watchMode flags); reflexivity.
Qed.

(** [main] with the stats file missing and no command on the line. *)
Lemma main_missing_file flags w p :
  command flags = None ->
  statsFile w = None ->
  main flags w p =
  (Exit 1,
   {| stdout := stdout p;
      stderr := (stderr p ++ [notFoundLine]) ++ [guidanceLine];
      showGoals := showGoals p |}).
Proof.
  intros Hcmd Hmissing. unfold main, existsSync.
  rewrite Hcmd, Hmissing. reflexivity.
Qed.

Lemma alwaysNormal_seq (m k : io unit) :
  alwaysNormal m -> alwaysNormal k -> alwaysNormal (m;; k).
Proof.
  intros Hm Hk p. unfold mbind, io_bind.
  destruct (Hm p) as [p1 ->]. apply Hk.
Qed.

Lemma alwaysNormal_when (b : bool) (m : io unit) :
  (b = true -> alwaysNormal m) -> alwaysNormal (when b m).
Proof.
  intros Hm. unfold when. destruct b; [apply Hm; reflexivity|].
  intros p. eexists; reflexivity.
Qed.

Lemma alwaysNormal_stdout_write (chunk : string) : alwaysNormal (stdout_write chunk).
Proof. intros p. eexists; reflexivity. Qed.

Lemma alwaysNormal_render flags w :
  watchMode flags = true -> alwaysNormal (render flags w).
Proof. intros Hwatch p. apply render_watch_normal, Hwatch. Qed.

(** A trigger that does not quit leaves the process running in watch mode. *)
Lemma dispatch_watch_normal flags w (t : Trigger) :
  watchMode flags = true ->
  quits t = false ->
  alwaysNormal (dispatch flags w t).
Proof.
  intros Hwatch Hq. destruct t as [| | |char|]; simpl in *; try discriminate.
  - apply alwaysNormal_render, Hwatch.
  - apply alwaysNormal_render, Hwatch.
  - apply alwaysNormal_stdout_write.
  - unfold handleKeypress. rewrite Hq.
    repeat apply alwaysNormal_seq.
    + apply alwaysNormal_when. discriminate.
    + apply alwaysNormal_when. intros _. apply alwaysNormal_render, Hwatch.
    + apply alwaysNormal_when. intros _. destruct (loadGoals w).
      * apply alwaysNormal_seq; [|apply alwaysNormal_render, Hwatch].
        intros p. eexists; reflexivity.
      * repeat apply alwaysNormal_seq;
          try apply alwaysNormal_stdout_write.
        apply alwaysNormal_render, Hwatch.
Qed.

(** A refresh trigger runs exactly one [render]. *)
Lemma dispatch_refresh flags w (t : Trigger) p :
  refreshes t = true ->
  dispatch flags w t p = render flags w p.
Proof.
  destruct t as [| | |char|]; simpl; try discriminate; try reflexivity.
  intros Hr. apply String.eqb_eq in Hr. subst char.
  unfold handleKeypress, when, mbind, io_bind. simpl.
  destruct (render flags w p) as [[[]|m|k] p']; reflexivity.
Qed.

Lemma eventLoop_watch_normal flags (events : list (World Json Data * Trigger)) :
  watchMode flags = true ->
  Forall (fun e => quits (snd e) = false) events ->
  forall p, exists p', eventLoop flags events p = (Normal tt, p').
Proof.
  intros Hwatch Hq. induction Hq as [|[w t] events Ht _ IH]; intros p; simpl.
  - eexists; reflexivity.
  - unfold mbind, io_bind.
    destruct (dispatch_watch_normal flags w t Hwatch Ht p) as [p1 ->].
    apply IH.
Qed.

(** ** C9 *)

(** C9. With the stats file missing: outside watch mode the program
    reports the error with guidance and exits with status 1, from [main]
    and, should the file vanish after the check of [main], from [render];
    in watch mode a [render] that fails writes the error and ends
    normally, every sequence of triggers without a quit leaves the process
    running, and the trigger that follows a failed render runs [render]
    again in full. *)
Theorem missing_stats_file flags w p :
  statsFile w = None ->
  (watchMode flags = false ->
     (command flags = None ->
        exists p', main flags w p = (Exit 1, p')
                   /\ In notFoundLine (stderr p') /\ In guidanceLine (stderr p'))
     /\ exists p', render flags w p = (Exit 1, p')
                   /\ In (errorLine (ENOENT (STATS_FILE w))) (stderr p'))
  /\ (watchMode flags = true ->
        (exists p', render flags w p = (Normal tt, p')
                    /\ In (errorLine (ENOENT (STATS_FILE w))) (stderr p'))
        /\ (forall events : list (World Json Data * Trigger),
              Forall (fun e => quits (snd e) = false) events ->
              exists p', eventLoop flags events p = (Normal tt, p'))
        /\ (forall (t t' : Trigger) w',
              refreshes t = true -> refreshes t' = true ->
              eventLoop flags [(w, t); (w', t')] p =
              render flags w' (snd (render flags w p)))).
Proof.
  intros Hmissing. split.
  - intros Hplain. split.
    + intros Hcmd. rewrite (main_missing_file flags w p Hcmd Hmissing).
      eexists. split; [reflexivity|]. simpl.
      split; apply in_or_app; [left; apply in_or_app|]; right; left; reflexivity.
    + rewrite (render_missing_file flags w p Hmissing), Hplain.
      eexists. split; [reflexivity|]. simpl.
      apply in_or_app. right. left. reflexivity.
  - intros Hwatch. split; [|split].
    + rewrite (render_missing_file flags w p Hmissing), Hwatch.
      eexists. split; [reflexivity|]. simpl.
      apply in_or_app. right. left. reflexivity.
    + intros events Hq. apply eventLoop_watch_normal; assumption.
    + intros t t' w' Ht Ht'. simpl. unfold mbind, io_bind.
      rewrite (dispatch_refresh flags w t p Ht).
      rewrite (render_missing_file flags w p Hmissing), Hwatch. simpl.
      rewrite (dispatch_refresh flags w' t' _ Ht').
      destruct (render flags w' _) as [[[]|m|k] p']; reflexivity.
Qed.

(** [render] never ends by an exception. *)
Lemma render_never_throws flags w p (message : string) :
  fst (render flags w p) <> Thrown message.
Proof.
  unfold render, io_try_catch.
  match goal with |- context [match ?body p with _ => _ end] =>
    destruct (body p) as [[[]|m|code] p'] end; simpl; try discriminate.
  destruct (negb (watchMode flags)); simpl; discriminate.
Qed.

End ProgramFacts.

Lemma missing_stats_file_witness :
  (exists p', main plainFlags noStatsWorld freshProcess = (Exit 1, p')
              /\ In notFoundLine (stderr p') /\ In guidanceLine (stderr p'))
  /\ eventLoop watchFlags [(noStatsWorld, RefreshTimer); (statsWorld, FileChange)]
               freshProcess =
     render watchFlags statsWorld (snd (render watchFlags noStatsWorld freshProcess)).
Proof.
  split.
  - apply (proj1 (missing_stats_file plainFlags noStatsWorld freshProcess eq_refl));
      reflexivity.
  - apply (proj2 (missing_stats_file watchFlags noStatsWorld freshProcess eq_refl));
      reflexivity.
Defined.

(** After the failed render the next one draws the dashboard; the quota
    block is left out because the network is down. *)
Lemma retry_draws_dashboard :
  eventLoop watchFlags [(noStatsWorld, RefreshTimer); (statsWorld, FileChange)]
            freshProcess =
  (Normal tt,
   {| stdout := [clear; "dashboard"%string];
      stderr := [errorLine (ENOENT (STATS_FILE noStatsWorld))];
      showGoals := true |}).
Proof. reflexivity. Qed.

(** * Further properties *)

(** ** The two windows of the weekly trend *)

(** X1. [getPrev7Days] keeps the records dated from the first day whose
    midnight is not before the cutoff of fourteen days back, up to the day
    before the first day of [getLast7Days].  Where the zone's offset is the
    same seven and fourteen days back as now, these are seven calendar
    days: today-13 to today-7, and today-14 to today-8 when [now] is
    exactly a UTC midnight. *)
Theorem getPrev7Days_on_calendar (tz : TimeZone) (now : Z)
    (activity : list DailyActivity) :
  getPrev7Days tz now activity =
    List.filter
      (fun d => (firstDayFrom (setDateBack tz now 14) <=? date d)
                && (date d <? firstDayFrom (setDateBack tz now 7)))
      activity
  /\ (sameOffset tz now 7 -> sameOffset tz now 14 ->
      getPrev7Days tz now activity =
      List.filter
        (fun d => if now mod MS_PER_DAY =? 0
                  then (formatDate now - 14 <=? date d) && (date d <=? formatDate now - 8)
                  else (formatDate now - 13 <=? date d) && (date d <=? formatDate now - 7))
        activity).
Proof.
  assert (forall t d, (newDate d <? t) = (d <? firstDayFrom t)) as Hlt.
  { intros t d. rewrite !Z.ltb_antisym, instant_on_calendar. reflexivity. }
  split.
  - unfold getPrev7Days. apply List.filter_ext. intros d. cbv zeta.
    rewrite instant_on_calendar, Hlt. reflexivity.
  - intros H7 H14. unfold getPrev7Days. apply List.filter_ext. intros d. cbv zeta.
    rewrite instant_on_calendar, Hlt.
    rewrite (setDateBack_sameOffset _ _ _ H7), (setDateBack_sameOffset _ _ _ H14).
    rewrite !firstDayFrom_back.
    destruct (now mod MS_PER_DAY =? 0);
      apply eq_true_iff_eq;
      rewrite !andb_true_iff, !Z.leb_le, Z.ltb_lt; lia.
Qed.

Lemma getPrev7Days_on_calendar_witness :
  getPrev7Days Etc_UTC noon20000 fortnight =
  List.filter
    (fun d => if noon20000 mod MS_PER_DAY =? 0
              then (formatDate noon20000 - 14 <=? date d)
                   && (date d <=? formatDate noon20000 - 8)
              else (formatDate noon20000 - 13 <=? date d)
                   && (date d <=? formatDate noon20000 - 7))
    fortnight.
Proof.
  apply (proj2 (getPrev7Days_on_calendar Etc_UTC noon20000 fortnight));
    reflexivity.
Defined.

(** In New York, half an hour after midnight UTC three days after the end
    of daylight time, both cutoffs are an hour earlier and fall on the UTC
    day before: the window is today-14 to today-8. *)
Lemma getPrev7Days_over_offset_change :
  map date (getPrev7Days America_New_York november6
              (map (fun k => record (20033 - Z.of_nat k) 100 1 5) (seq 0 16)))
  = [20025; 20024; 20023; 20022; 20021; 20020; 20019].
Proof. reflexivity. Qed.

Lemma filter_split {A : Type} (p q r : A -> bool) (l : list A) :
  (forall x, r x = p x || q x) ->
  (forall x, p x && q x = false) ->
  List.filter p l ++ List.filter q l ≡ₚ List.filter r l.
Proof.
  intros Hr Hpq. induction l as [|x l IH]; simpl; [reflexivity|].
  rewrite (Hr x). specialize (Hpq x).
  destruct (p x), (q x); simpl in *; try discriminate.
  - constructor. exact IH.
  - rewrite <- Permutation_middle. constructor. exact IH.
  - exact IH.
Qed.

(** X2. The previous window and the last window share no record, and together
    they hold exactly the records not older than fourteen days. *)
Theorem windows_split_fortnight (tz : TimeZone) (now : Z)
    (activity : list DailyActivity) :
  getPrev7Days tz now activity ++ getLast7Days tz now activity
    ≡ₚ List.filter (fun d => setDateBack tz now 14 <=? newDate (date d)) activity
  /\ (forall d, In d (getPrev7Days tz now activity) ->
                ~ In d (getLast7Days tz now activity)).
Proof.
  split.
  - unfold getPrev7Days, getLast7Days. apply filter_split; intros d; cbv zeta.
    + pose proof (setDateBack_bounds tz now 14) as H14.
      pose proof (setDateBack_bounds tz now 7) as H7.
      unfold MS_PER_DAY in H14, H7.
      apply eq_true_iff_eq.
      rewrite orb_true_iff, andb_true_iff, !Z.leb_le, Z.ltb_lt. lia.
    + apply not_true_iff_false.
      rewrite !andb_true_iff, !Z.leb_le, Z.ltb_lt. lia.
  - unfold getPrev7Days, getLast7Days. intros d Hprev Hlast.
    apply filter_In in Hprev as [_ Hprev]. apply filter_In in Hlast as [_ Hlast].
    cbv zeta in Hprev. apply andb_true_iff in Hprev as [_ Hprev].
    apply Z.ltb_lt in Hprev. apply Z.leb_le in Hlast. lia.
Qed.

(** ** [aggregateStats] and the order of the records *)

Lemma filter_Permutation_bool {A : Type} (p : A -> bool) (l l' : list A) :
  l ≡ₚ l' -> List.filter p l ≡ₚ List.filter p l'.
Proof.
  induction 1 as [|x l l' _ IH|x y l|l l' l'' _ IH1 _ IH2]; simpl.
  - reflexivity.
  - destruct (p x); [constructor|]; exact IH.
  - destruct (p x), (p y); try reflexivity. apply perm_swap.
  - etransitivity; eassumption.
Qed.

(** X3. The statistics do not depend on the order in which the records come. *)
Theorem aggregateStats_order (data data' : list DailyActivity) :
  data ≡ₚ data' -> aggregateStats data = aggregateStats data'.
Proof.
  intros Hperm.
  pose proof (messages_sum data) as Hm. pose proof (messages_sum data') as Hm'.
  pose proof (sessions_sum data) as Hs. pose proof (sessions_sum data') as Hs'.
  pose proof (toolCalls_sum data) as Ht. pose proof (toolCalls_sum data') as Ht'.
  assert (activeDays (aggregateStats data) = activeDays (aggregateStats data')) as Ha.
  { simpl. f_equal. apply Permutation_length, filter_Permutation_bool, Hperm. }
  rewrite (sumZ_Permutation _ _ (Permutation_map _ Hperm)) in Hm.
  rewrite (sumZ_Permutation _ _ (Permutation_map _ Hperm)) in Hs.
  rewrite (sumZ_Permutation _ _ (Permutation_map _ Hperm)) in Ht.
  destruct (aggregateStats data), (aggregateStats data'); simpl in *. congruence.
Qed.

Lemma aggregateStats_order_witness :
  aggregateStats [record 1 4 1 0; record 2 0 1 7; record 3 6 2 1] =
  aggregateStats [record 3 6 2 1; record 1 4 1 0; record 2 0 1 7].
Proof.
  apply aggregateStats_order.
  apply (perm_trans (l' := [record 1 4 1 0; record 3 6 2 1; record 2 0 1 7])).
  - apply perm_skip, perm_swap.
  - apply perm_swap.
Defined.

(** The statistics of two lists of records add up, field by field. *)
Theorem aggregateStats_app (l1 l2 : list DailyActivity) :
  aggregateStats (l1 ++ l2) =
  {| messages := messages (aggregateStats l1) + messages (aggregateStats l2);
     sessions := sessions (aggregateStats l1) + sessions (aggregateStats l2);
     toolCalls := toolCalls (aggregateStats l1) + toolCalls (aggregateStats l2);
     activeDays := activeDays (aggregateStats l1) + activeDays (aggregateStats l2) |}.
Proof.
  pose proof (messages_sum (l1 ++ l2)) as Hm.
  pose proof (sessions_sum (l1 ++ l2)) as Hs.
  pose proof (toolCalls_sum (l1 ++ l2)) as Ht.
  rewrite map_app, sumZ_app in Hm. rewrite map_app, sumZ_app in Hs.
  rewrite map_app, sumZ_app in Ht.
  rewrite <- !messages_sum in Hm. rewrite <- !sessions_sum in Hs.
  rewrite <- !toolCalls_sum in Ht.
  assert (activeDays (aggregateStats (l1 ++ l2)) =
          activeDays (aggregateStats l1) + activeDays (aggregateStats l2)) as Ha.
  { simpl. rewrite List.filter_app, length_app. lia. }
  destruct (aggregateStats (l1 ++ l2)); simpl in *. congruence.
Qed.

(** X4. There are no more active days than records, and on a history whose
    counts are not negative no more active days than messages. *)
Theorem activeDays_bounds (data : list DailyActivity) :
  0 <= activeDays (aggregateStats data) <= Z.of_nat (length data)
  /\ (wellFormed data ->
      activeDays (aggregateStats data) <= messages (aggregateStats data)).
Proof.
  split.
  - simpl. pose proof (List.filter_length_le (fun d => gt_zero (messageCount d)) data).
    lia.
  - intros Hwf. rewrite messages_sum. simpl.
    induction Hwf as [|d data Hd _ IH]; simpl; [lia|].
    destruct (messageCount d) as [n|]; simpl in *; [|lia].
    destruct (Z.ltb_spec 0 n); simpl; lia.
Qed.

Lemma activeDays_bounds_witness :
  activeDays (aggregateStats [record 1 4 1 0; record 2 0 1 7]) <=
  messages (aggregateStats [record 1 4 1 0; record 2 0 1 7]).
Proof.
  apply (proj2 (activeDays_bounds [record 1 4 1 0; record 2 0 1 7])).
  repeat constructor; simpl; lia.
Defined.

Lemma windows_split_fortnight_witness :
  ~ In (record 19990 3 1 0)
       (getLast7Days Etc_UTC noon20000 [record 19990 3 1 0; record 19999 5 1 0]).
Proof.
  apply (proj2 (windows_split_fortnight Etc_UTC noon20000
                  [record 19990 3 1 0; record 19999 5 1 0])).
  vm_compute. left. reflexivity.
Defined.

(** ** The streak *)

Lemma streak_loop_bounds (sorted : list DailyActivity) (tz : TimeZone)
    (now today : Z) (n : nat) :
  forall i streak,
    streak <= streak_loop sorted tz now today n i streak <= streak + Z.of_nat n.
Proof.
  induction n as [|n IH]; intros i streak.
  - simpl. lia.
  - cbn [streak_loop]. cbv zeta.
    destruct (match List.find _ sorted with Some d => _ | None => false end).
    + specialize (IH (i + 1) (streak + 1)). lia.
    + destruct ((i =? 0) && _).
      * specialize (IH (i + 1) streak). lia.
      * lia.
Qed.

(** X5. The streak is never negative and never longer than the history. *)
Theorem calculateStreak_bounds (tz : TimeZone) (now : Z)
    (activity : list DailyActivity) :
  0 <= calculateStreak tz now activity <= Z.of_nat (length activity).
Proof.
  unfold calculateStreak.
  pose proof (streak_loop_bounds (sort_desc activity) tz now (formatDate now)
                (length (sort_desc activity)) 0 0) as H.
  rewrite length_sort_desc in *. lia.
Qed.

Lemma activeOn_dated (activity : list DailyActivity) (day : Z) :
  activeOn activity day = true -> In day (map date activity).
Proof.
  unfold activeOn. destruct (List.find _ activity) as [d|] eqn:E; [|discriminate].
  intros _. apply find_some in E as [Hin Hd].
  apply Z.eqb_eq in Hd. subst day. apply in_map, Hin.
Qed.

(** A run of [K] active days needs [K] records. *)
Lemma active_run_length (activity : list DailyActivity) (today : Z) (K : nat) :
  (forall j, 0 <= j < Z.of_nat K -> activeOn activity (today - j) = true) ->
  (K <= length activity)%nat.
Proof.
  intros Hrun.
  assert (List.NoDup (map (fun k => today - Z.of_nat k) (seq 0 K))) as Hnd.
  { generalize 0%nat as a. induction K as [|K IH]; intros a; simpl; constructor.
    - intros Hin. apply in_map_iff in Hin as (k & Hk & Hin).
      apply in_seq in Hin. lia.
    - apply IH. intros j Hj. apply Hrun. lia. }
  assert (incl (map (fun k => today - Z.of_nat k) (seq 0 K)) (map date activity))
    as Hincl.
  { intros day Hday. apply in_map_iff in Hday as (k & <- & Hk).
    apply in_seq in Hk. apply activeOn_dated, Hrun. lia. }
  pose proof (NoDup_incl_length Hnd Hincl) as Hlen.
  rewrite !length_map, length_seq in Hlen. exact Hlen.
Qed.

(** X6. Where the zone's offset at the present local time of day is the
    same on each of the [K] days back as now: with a record with messages
    for today and for each of the [K - 1] days before it, and none such
    for the day before those, the streak is [K]. *)
Theorem calculateStreak_counts_run (tz : TimeZone) (now : Z)
    (activity : list DailyActivity) (K : nat) :
  (1 <= K)%nat ->
  (forall j, 0 <= j <= Z.of_nat K -> sameOffset tz now j) ->
  (forall j, 0 <= j < Z.of_nat K ->
             activeOn activity (formatDate now - j) = true) ->
  activeOn activity (formatDate now - Z.of_nat K) = false ->
  calculateStreak tz now activity = Z.of_nat K.
Proof.
  intros HK Hsame Hrun Hstop.
  apply calculateStreak_today_present;
    [exact Hsame | exact Hrun | exact Hstop |].
  split; [exact HK|]. exact (active_run_length activity _ K Hrun).
Qed.

Lemma calculateStreak_counts_run_witness :
  calculateStreak Etc_UTC noon20000
    [record 19997 0 0 0; record 19999 5 1 0; record 20000 2 1 0; record 19998 9 1 0]
  = 3.
Proof.
  apply (calculateStreak_counts_run Etc_UTC noon20000 _ 3);
    [lia | intros j _; reflexivity | | reflexivity].
  intros j Hj.
  assert (j = 0 \/ j = 1 \/ j = 2) as [->|[->| ->]] by lia; reflexivity.
Defined.

(** In New York, half an hour after midnight UTC three days after the end
    of daylight time, the loop looks at 6, 5 and 4 November and then at
    2 November: with 3 November without messages and 2 November with, the
    streak goes past the gap. *)
Lemma calculateStreak_over_offset_change :
  map (fun i => formatDate (setDateBack America_New_York november6 i))
      [0; 1; 2; 3; 4]
  = [20033; 20032; 20031; 20029; 20028]
  /\ calculateStreak America_New_York november6
       [record 20033 2 1 0; record 20032 5 1 0; record 20031 9 1 0;
        record 20030 0 0 0; record 20029 4 1 0; record 20028 0 0 0]
     = 4
  /\ calculateStreak Etc_UTC november6
       [record 20033 2 1 0; record 20032 5 1 0; record 20031 9 1 0;
        record 20030 0 0 0; record 20029 4 1 0; record 20028 0 0 0]
     = 3.
Proof. repeat split. Qed.

Lemma calculateStreak_today_pending_witness :
  calculateStreak Etc_UTC noon20000 fortnightPending = 12.
Proof.
  apply (calculateStreak_today_pending Etc_UTC noon20000 fortnightPending 13);
    [intros j _; reflexivity | reflexivity | | reflexivity].
  intros j Hj.
  assert (j = 1 \/ j = 2 \/ j = 3 \/ j = 4 \/ j = 5 \/ j = 6 \/ j = 7 \/ j = 8
          \/ j = 9 \/ j = 10 \/ j = 11 \/ j = 12 \/ j = 13)
    as [->|[->|[->|[->|[->|[->|[->|[->|[->|[->|[->|[->| ->]]]]]]]]]]]] by lia;
    reflexivity.
Defined.

Lemma streak_loop_ext (s1 s2 : list DailyActivity) (tz : TimeZone)
    (now today : Z) (n : nat) :
  (forall e, List.find (fun d => date d =? e) s1 =
             List.find (fun d => date d =? e) s2) ->
  forall i streak,
    streak_loop s1 tz now today n i streak = streak_loop s2 tz now today n i streak.
Proof.
  intros Hfind. induction n as [|n IH]; intros i streak; [reflexivity|].
  cbn [streak_loop]. cbv zeta. rewrite Hfind, !IH. reflexivity.
Qed.

Lemma date_injective (l : list DailyActivity) (x y : DailyActivity) :
  NoDup (map date l) -> In x l -> In y l -> date x = date y -> x = y.
Proof.
  induction l as [|a l IH]; simpl; intros Hnd Hx Hy Hxy; [contradiction|].
  apply NoDup_cons in Hnd as [Ha Hnd]. rewrite list_elem_of_In in Ha.
  destruct Hx as [->|Hx], Hy as [->|Hy].
  - reflexivity.
  - exfalso. apply Ha. rewrite Hxy. apply in_map, Hy.
  - exfalso. apply Ha. rewrite <- Hxy. apply in_map, Hx.
  - apply IH; assumption.
Qed.

(** With one record per date, [find] by date does not depend on the order. *)
Lemma find_date_Permutation (l l' : list DailyActivity) (e : Z) :
  NoDup (map date l) -> l ≡ₚ l' ->
  List.find (fun d => date d =? e) l = List.find (fun d => date d =? e) l'.
Proof.
  intros Hnd Hperm.
  destruct (List.find _ l) as [d|] eqn:E; destruct (List.find _ l') as [d'|] eqn:E';
    try reflexivity.
  - apply find_some in E as [Hin Hd]. apply find_some in E' as [Hin' Hd'].
    apply Z.eqb_eq in Hd, Hd'. f_equal.
    apply (date_injective l); try assumption; [|congruence].
    apply (Permutation_in _ (Permutation_sym Hperm)), Hin'.
  - apply find_some in E as [Hin Hd].
    pose proof (find_none _ _ E' d (Permutation_in _ Hperm Hin)) as Hno.
    simpl in Hno. congruence.
  - apply find_some in E' as [Hin' Hd'].
    pose proof (find_none _ _ E d' (Permutation_in _ (Permutation_sym Hperm) Hin'))
      as Hno.
    simpl in Hno. congruence.
Qed.

(** X7. On a history with one record per date, the streak does not depend on
    the order of the records. *)
Theorem calculateStreak_order (tz : TimeZone) (now : Z)
    (activity activity' : list DailyActivity) :
  NoDup (map date activity) ->
  activity ≡ₚ activity' ->
  calculateStreak tz now activity = calculateStreak tz now activity'.
Proof.
  intros Hnd Hperm. unfold calculateStreak.
  rewrite !length_sort_desc, (Permutation_length Hperm).
  apply streak_loop_ext. intros e.
  rewrite !find_sort_desc. apply find_date_Permutation; assumption.
Qed.

Lemma calculateStreak_order_witness :
  calculateStreak Etc_UTC noon20000 [record 19999 5 1 0; record 20000 2 1 0] =
  calculateStreak Etc_UTC noon20000 [record 20000 2 1 0; record 19999 5 1 0].
Proof.
  apply calculateStreak_order.
  - apply NoDup_ListNoDup. repeat constructor; simpl; intuition discriminate.
  - apply perm_swap.
Defined.

(** ** Token totals and the set of dates *)

Lemma dated_In (dates : list DailyActivity) (day : DailyModelTokens) :
  dated dates day = true <-> In (tdate day) (map date dates).
Proof.
  unfold dated. rewrite existsb_exists, in_map_iff.
  split; intros (a & H1 & H2); exists a.
  - split; [apply Z.eqb_eq, H2 | exact H1].
  - split; [exact H2 | apply Z.eqb_eq, H1].
Qed.

(** X8. [aggregateTokens] looks at [dates] only as a set of dates: a date that
    occurs twice is not counted twice, and the order does not matter. *)
Theorem aggregateTokens_dates_as_set (tokenData : list DailyModelTokens)
    (dates dates' : list DailyActivity) :
  (forall day, In day (map date dates) <-> In day (map date dates')) ->
  aggregateTokens tokenData dates = aggregateTokens tokenData dates'.
Proof.
  intros Hsame. rewrite !aggregateTokens_accumulate.
  rewrite (List.filter_ext (dated dates) (dated dates')); [reflexivity|].
  intros day. apply eq_true_iff_eq. rewrite !dated_In. apply Hsame.
Qed.

Lemma aggregateTokens_dates_as_set_witness :
  aggregateTokens [tokensA; tokensB; tokensC] (activityAB ++ rev activityAB) =
  aggregateTokens [tokensA; tokensB; tokensC] activityAB.
Proof.
  apply aggregateTokens_dates_as_set.
  intros day. simpl. intuition.
Defined.

Lemma totals_of_accumulate (tokenData : list DailyModelTokens)
    (dates : list DailyActivity) :
  total (aggregateTokens tokenData dates) =
  sumZ (map dayTokens (List.filter (dated dates) tokenData)).
Proof.
  rewrite aggregateTokens_accumulate. simpl.
  rewrite sumValues_accumulate, sumValues_empty. lia.
Qed.

Lemma model_of_accumulate (tokenData : list DailyModelTokens)
    (dates : list DailyActivity) (model : string) :
  or_zero (byModel (aggregateTokens tokenData dates) !! model) =
  sumZ (map (fun day => modelTokens model (entries day))
            (List.filter (dated dates) tokenData)).
Proof.
  rewrite aggregateTokens_accumulate. simpl.
  rewrite lookup_accumulate, lookup_empty, modelTokens_days.
  destruct (existsb _ _) eqn:E; simpl; [lia|].
  rewrite <- modelTokens_days, (filter_appears_nil _ _ E). reflexivity.
Qed.

Lemma sum_filter_disjoint {A : Type} (f : A -> Z) (p q r : A -> bool) (l : list A) :
  (forall x, r x = p x || q x) ->
  (forall x, p x && q x = false) ->
  sumZ (map f (List.filter r l)) =
  sumZ (map f (List.filter p l)) + sumZ (map f (List.filter q l)).
Proof.
  intros Hr Hpq.
  rewrite <- (sumZ_Permutation _ _ (Permutation_map f (filter_split p q r l Hr Hpq))).
  rewrite map_app, sumZ_app. reflexivity.
Qed.

(** X9. Over two sets of dates with no date in common, the totals add up: the
    overall total and the total of every model. *)
Theorem aggregateTokens_disjoint_dates (tokenData : list DailyModelTokens)
    (dates1 dates2 : list DailyActivity) :
  (forall day, In day (map date dates1) -> ~ In day (map date dates2)) ->
  total (aggregateTokens tokenData (dates1 ++ dates2)) =
    total (aggregateTokens tokenData dates1) + total (aggregateTokens tokenData dates2)
  /\ forall model,
       or_zero (byModel (aggregateTokens tokenData (dates1 ++ dates2)) !! model) =
       or_zero (byModel (aggregateTokens tokenData dates1) !! model)
       + or_zero (byModel (aggregateTokens tokenData dates2) !! model).
Proof.
  intros Hdisj.
  assert (forall day, dated (dates1 ++ dates2) day = dated dates1 day || dated dates2 day)
    as Hor.
  { intros day. unfold dated. apply existsb_app. }
  assert (forall day, dated dates1 day && dated dates2 day = false) as Hand.
  { intros day. apply not_true_iff_false. rewrite andb_true_iff, !dated_In.
    intros [H1 H2]. exact (Hdisj _ H1 H2). }
  split.
  - rewrite !totals_of_accumulate. apply sum_filter_disjoint; assumption.
  - intros model. rewrite !model_of_accumulate.
    apply sum_filter_disjoint; assumption.
Qed.

Lemma aggregateTokens_disjoint_dates_witness :
  total (aggregateTokens [tokensA; tokensB; tokensC]
           ([record 1 10 1 0] ++ [record 3 2 1 0])) =
  total (aggregateTokens [tokensA; tokensB; tokensC] [record 1 10 1 0])
  + total (aggregateTokens [tokensA; tokensB; tokensC] [record 3 2 1 0]).
Proof.
  apply (proj1 (aggregateTokens_disjoint_dates [tokensA; tokensB; tokensC]
                  [record 1 10 1 0] [record 3 2 1 0]
                  ltac:(simpl; intros day [<-|[]] [H|[]]; discriminate H))).
Defined.

Lemma modelTokens_le_all (model : string) (es : list (string * Z)) :
  Forall (fun e => 0 <= snd e) es ->
  0 <= modelTokens model es <= sumZ (map snd es).
Proof.
  induction 1 as [|[m tokens] es He _ IH]; simpl in *; [lia|].
  destruct (String.eqb m model); lia.
Qed.

(** X10. With token counts that are not negative, no total is negative and the
    total of a model is never more than the overall total. *)
Theorem aggregateTokens_model_le_total (tokenData : list DailyModelTokens)
    (dates : list DailyActivity) (model : string) :
  tokensWellFormed tokenData ->
  0 <= or_zero (byModel (aggregateTokens tokenData dates) !! model)
    <= total (aggregateTokens tokenData dates).
Proof.
  intros Hwf. rewrite totals_of_accumulate, model_of_accumulate.
  induction Hwf as [|day tokenData Hday _ IH]; simpl; [lia|].
  destruct (dated dates day); [|exact IH].
  pose proof (modelTokens_le_all model (entries day) Hday) as Hle.
  fold (dayTokens day) in Hle.
  unfold sumZ in *. cbn [map foldr]. lia.
Qed.

Lemma aggregateTokens_model_le_total_witness :
  0 <= or_zero (byModel (aggregateTokens [tokensA; tokensB; tokensC] activityAB)
                  !! "opus"%string)
    <= total (aggregateTokens [tokensA; tokensB; tokensC] activityAB).
Proof.
  apply aggregateTokens_model_le_total.
  repeat constructor; simpl; lia.
Defined.

(** ** Time until a reset *)

Lemma div_mod_mul (a b c : Z) :
  0 < b -> 0 < c -> (a mod (b * c)) / b = (a / b) mod c.
Proof.
  intros Hb Hc.
  pose proof (Z.div_mod a b ltac:(lia)) as Ha.
  pose proof (Z.mod_pos_bound a b Hb) as Hr.
  pose proof (Z.div_mod (a / b) c ltac:(lia)) as Hq.
  pose proof (Z.mod_pos_bound (a / b) c Hc) as Hr'.
  assert (a mod (b * c) = b * ((a / b) mod c) + a mod b) as ->.
  { symmetry. apply (Z.mod_unique_pos a (b * c) (a / b / c)); nia. }
  symmetry. apply (Z.div_unique_pos _ b _ (a mod b)); lia.
Qed.

(** X12. What [formatTimeUntil] shows depends on the whole minutes left only:
    [now] when none is left or the reset is past; the minutes below one
    hour; hours and minutes from one hour up to 24 h 59 min; days and
    hours, the minutes dropped, from 25 hours on. *)
Theorem formatTimeUntil_by_minutes (now reset : Z) :
  formatTimeUntil now (Instant reset) =
  let left := (reset - now) / 60000 in
  if reset <=? now then "now"
  else if 1500 <=? left then
    pretty (left / 1440) +:+ "d " +:+ pretty ((left / 60) mod 24) +:+ "h"
  else if 60 <=? left then
    pretty (left / 60) +:+ "h " +:+ pretty (left mod 60) +:+ "m"
  else pretty left +:+ "m".
Proof.
  unfold formatTimeUntil. cbv zeta.
  replace (reset - now <=? 0) with (reset <=? now)
    by (apply eq_true_iff_eq; rewrite !Z.leb_le; lia).
  destruct (Z.leb_spec reset now) as [|Hlt]; [reflexivity|].
  change (1000 * 60 * 60) with (60000 * 60). change (1000 * 60) with 60000.
  rewrite div_mod_mul by lia.
  rewrite <- (Z.div_div (reset - now) 60000 60) by lia.
  set (left := (reset - now) / 60000).
  assert (0 <= left) as Hleft by (apply Z.div_pos; lia).
  replace (24 <? left / 60) with (1500 <=? left).
  2:{ apply eq_true_iff_eq. rewrite Z.leb_le, Z.ltb_lt.
      split; intros H.
      - assert (25 <= left / 60); [apply Z.div_le_lower_bound|]; lia.
      - pose proof (Z.mul_div_le left 60 ltac:(lia)). lia. }
  destruct (1500 <=? left).
  - rewrite Z.div_div by lia. reflexivity.
  - replace (0 <? left / 60) with (60 <=? left).
    2:{ apply eq_true_iff_eq. rewrite Z.leb_le, Z.ltb_lt.
        split; intros H.
        - assert (1 <= left / 60); [apply Z.div_le_lower_bound|]; lia.
        - pose proof (Z.mul_div_le left 60 ltac:(lia)). lia. }
    destruct (Z.leb_spec 60 left) as [|Hsmall]; [reflexivity|].
    rewrite Z.mod_small by lia. reflexivity.
Qed.

(** ** The countdown of watch mode *)




(** ** Bars *)

Lemma Math_round_range (x : Q) (lo hi : Z) :
  (inject_Z lo <= x)%Q -> (x <= inject_Z hi)%Q -> lo <= Math_round x <= hi.
Proof.
  intros Hlo Hhi. unfold Math_round. split.
  - rewrite <- (Qfloor_Z lo). apply Qfloor_resp_le.
    apply (Qle_trans _ x); [exact Hlo|].
    rewrite <- (Qplus_0_r x) at 1. apply Qplus_le_r. discriminate.
  - apply Z.lt_succ_r. rewrite Zlt_Qlt.
    apply (Qle_lt_trans _ (x + (1 # 2))); [apply Qfloor_le|].
    apply (Qle_lt_trans _ (inject_Z hi + (1 # 2))); [apply Qplus_le_l, Hhi|].
    unfold Z.succ. rewrite inject_Z_plus. apply Qplus_lt_r. reflexivity.
Qed.

Lemma share_of_width (percent : Q) (width : Z) :
  (0 <= percent)%Q -> (percent <= 100)%Q -> 0 <= width ->
  (inject_Z 0 <= percent / 100 * inject_Z width)%Q
  /\ (percent / 100 * inject_Z width <= inject_Z width)%Q.
Proof.
  intros Hlo Hhi Hw.
  assert (0 <= inject_Z width)%Q as Hw'
    by (change 0%Q with (inject_Z 0); rewrite <- Zle_Qle; exact Hw).
  assert (0 <= percent / 100)%Q as H0.
  { apply Qle_shift_div_l; [reflexivity|]. rewrite Qmult_0_l. exact Hlo. }
  assert (percent / 100 <= 1)%Q as H1.
  { apply Qle_shift_div_r; [reflexivity|]. rewrite Qmult_1_l. exact Hhi. }
  split.
  - apply Qmult_le_0_compat; assumption.
  - rewrite <- (Qmult_1_l (inject_Z width)) at 2.
    apply Qmult_le_compat_r; assumption.
Qed.

Lemma drawBar_cells (color : string) (filled empty : Z) :
  0 <= filled -> 0 <= empty ->
  drawBar color filled empty = Ok (bar color (Z.to_nat filled) (Z.to_nat empty)).
Proof.
  intros Hf He. unfold drawBar, String_repeat.
  destruct (Z.ltb_spec filled 0); [lia|].
  destruct (Z.ltb_spec empty 0); [lia|]. reflexivity.
Qed.

Lemma drawBar_overflow (color : string) (filled empty : Z) :
  0 <= filled -> empty < 0 ->
  drawBar color filled empty = Throw ("Invalid count value: " +:+ pretty empty).
Proof.
  intros Hf He. unfold drawBar, String_repeat.
  destruct (Z.ltb_spec filled 0); [lia|].
  destruct (Z.ltb_spec empty 0); [|lia]. reflexivity.
Qed.

Lemma makeQuotaBar_in_range (percent : Q) (width : Z) :
  (0 <= percent)%Q -> (percent <= 100)%Q -> 0 <= width ->
  exists color filled,
    (filled <= Z.to_nat width)%nat
    /\ makeQuotaBar percent width = Ok (bar color filled (Z.to_nat width - filled)).
Proof.
  intros Hlo Hhi Hw. unfold makeQuotaBar. cbv zeta.
  destruct (share_of_width percent width Hlo Hhi Hw) as [H0 H1].
  pose proof (Math_round_range _ 0 width H0 H1) as Hr.
  eexists. exists (Z.to_nat (Math_round (percent / 100 * inject_Z width))).
  split; [lia|].
  rewrite drawBar_cells by lia. do 2 f_equal. lia.
Qed.

Lemma makeQuotaBar_over (percent : Q) :
  ((205 # 2) <= percent)%Q ->
  exists message, makeQuotaBar percent 20 = Throw message.
Proof.
  intros Hover. unfold makeQuotaBar. cbv zeta.
  assert (21 <= Math_round (percent / 100 * inject_Z 20)) as Hr.
  { unfold Math_round. rewrite <- (Qfloor_Z 21). apply Qfloor_resp_le.
    apply (Qle_trans _ ((205 # 2) / 100 * inject_Z 20 + (1 # 2))); [discriminate|].
    apply Qplus_le_l, Qmult_le_compat_r; [|discriminate].
    apply Qmult_le_compat_r; [exact Hover | discriminate]. }
  eexists. apply drawBar_overflow; lia.
Qed.

(** X14. For a percentage from 0 to 100, [makeQuotaBar] draws a bar of exactly
    [width] cells.  With the width 20 of the quota block and a percentage
    of 102.5 or more it throws: the number of shaded cells is negative. *)
Theorem makeQuotaBar_cells (percent : Q) (width : Z) :
  ((0 <= percent)%Q -> (percent <= 100)%Q -> 0 <= width ->
   exists color filled,
     (filled <= Z.to_nat width)%nat
     /\ makeQuotaBar percent width = Ok (bar color filled (Z.to_nat width - filled)))
  /\ (((205 # 2) <= percent)%Q ->
      exists message, makeQuotaBar percent 20 = Throw message).
Proof.
  split; [apply makeQuotaBar_in_range | apply makeQuotaBar_over].
Qed.

Lemma makeQuotaBar_cells_witness :
  (exists color filled,
     (filled <= 20)%nat /\ makeQuotaBar 40 20 = Ok (bar color filled (20 - filled)))
  /\ exists message, makeQuotaBar 103 20 = Throw message.
Proof.
  split.
  - apply (proj1 (makeQuotaBar_cells 40 20)); [discriminate | discriminate | lia].
  - apply (proj2 (makeQuotaBar_cells 103 20)). discriminate.
Defined.

Lemma Math_round_Qeq (x y : Q) : (x == y)%Q -> Math_round x = Math_round y.
Proof. intros H. unfold Math_round. rewrite H. reflexivity. Qed.

Lemma Qle_bool_Qeq (b x y : Q) : (x == y)%Q -> Qle_bool b x = Qle_bool b y.
Proof. intros H. rewrite H. reflexivity. Qed.

Lemma makeProgressBar_Qeq (p q : Q) (width : Z) :
  (p == q)%Q -> makeProgressBar p width = makeProgressBar q width.
Proof.
  intros H. unfold makeProgressBar.
  rewrite (Math_round_Qeq (p / 100 * inject_Z width) (q / 100 * inject_Z width))
    by (rewrite H; reflexivity).
  rewrite !(Qle_bool_Qeq _ p q H). reflexivity.
Qed.

Lemma goalPct_met (msgs goal : Z) :
  0 < goal -> goal <= msgs -> (goalPct msgs goal == 100)%Q.
Proof.
  intros Hg Hmet. unfold goalPct, Math_min.
  destruct (Qle_bool _ 100) eqn:E; [|reflexivity].
  apply Qle_bool_iff in E. apply Qle_antisym; [exact E|].
  apply Qnot_lt_le. intros Hlt.
  change 100%Q with (inject_Z 100) in Hlt at 2.
  apply percent_lt in Hlt; [lia | exact Hg].
Qed.

Lemma goalPct_not_met (msgs goal : Z) :
  0 <= msgs -> 0 < goal -> msgs < goal ->
  (0 <= goalPct msgs goal)%Q /\ (goalPct msgs goal < 100)%Q.
Proof.
  intros Hm Hg Hlt. unfold goalPct, Math_min.
  assert (inject_Z msgs / inject_Z goal * 100 < 100)%Q as Hbelow.
  { change 100%Q with (inject_Z 100) at 2. apply percent_lt; [exact Hg | lia]. }
  assert (0 <= inject_Z msgs / inject_Z goal * 100)%Q as Hpos.
  { apply Qnot_lt_le. intros Hneg.
    change 0%Q with (inject_Z 0) in Hneg.
    apply percent_lt in Hneg; [lia | exact Hg]. }
  destruct (Qle_bool _ 100) eqn:E.
  - split; assumption.
  - exfalso. apply Qlt_le_weak, Qle_bool_iff in Hbelow. congruence.
Qed.

(** X15. The bar of a goal, for counts that are not negative and a positive
    goal: it never throws and it has exactly 20 cells; it is green and
    full when the goal is met, and of another colour when it is not. *)
Theorem goal_bar_cells (msgs goal : Z) :
  0 <= msgs -> 0 < goal ->
  (goal <= msgs ->
   makeProgressBar (goalPct msgs goal) 20 = Ok (bar c.green 20 0))
  /\ (msgs < goal ->
      exists color filled,
        color <> c.green /\ (filled <= 20)%nat
        /\ makeProgressBar (goalPct msgs goal) 20 = Ok (bar color filled (20 - filled))).
Proof.
  intros Hm Hg. split.
  - intros Hmet.
    rewrite (makeProgressBar_Qeq _ 100 20 (goalPct_met msgs goal Hg Hmet)).
    reflexivity.
  - intros Hlt. destruct (goalPct_not_met msgs goal Hm Hg Hlt) as [H0 H100].
    set (pct := goalPct msgs goal) in *. unfold makeProgressBar. cbv zeta.
    destruct (share_of_width pct 20 H0 (Qlt_le_weak _ _ H100) ltac:(lia)) as [Hlo Hhi].
    pose proof (Math_round_range _ 0 20 Hlo Hhi) as Hr.
    assert (Qle_bool 100 pct = false) as ->.
    { apply not_true_iff_false. rewrite Qle_bool_iff. apply Qlt_not_le, H100. }
    eexists. exists (Z.to_nat (Math_round (pct / 100 * inject_Z 20))).
    split; [|split; [lia|]].
    2:{ rewrite drawBar_cells by lia. do 2 f_equal. lia. }
    destruct (Qle_bool 75 pct); [discriminate|].
    destruct (Qle_bool 50 pct); [discriminate|].
    destruct (Qle_bool 25 pct); discriminate.
Qed.

Lemma goal_bar_cells_witness :
  makeProgressBar (goalPct 150 100) 20 = Ok (bar c.green 20 0)
  /\ exists color filled,
       color <> c.green /\ (filled <= 20)%nat
       /\ makeProgressBar (goalPct 23 40) 20 = Ok (bar color filled (20 - filled)).
Proof.
  split.
  - apply (proj1 (goal_bar_cells 150 100 ltac:(lia) ltac:(lia))). lia.
  - apply (proj2 (goal_bar_cells 23 40 ltac:(lia) ltac:(lia))). lia.
Defined.

(** ** The quota block *)

Section PrintQuotaFacts.
Variable showNumber : Q -> string.

Lemma quotaLine_in_range (now : Z) (label : string) (limit : QuotaLimit) :
  utilizationInRange (Some limit) ->
  exists line, quotaLine showNumber now label limit = Ok line.
Proof.
  unfold utilizationInRange, quotaLine. intros Hrange. cbv zeta.
  set (pct := match utilization limit with
              | Some u => if Qeq_bool u 0 then 0%Q else u
              | None => 0%Q
              end).
  assert ((0 <= pct)%Q /\ (pct <= 100)%Q) as [Hlo Hhi].
  { subst pct. destruct (utilization limit) as [u|]; [|split; discriminate].
    destruct (Qeq_bool u 0); [split; discriminate | exact Hrange]. }
  destruct (makeQuotaBar_in_range pct 20 Hlo Hhi ltac:(lia)) as (color & filled & _ & ->).
  eexists. reflexivity.
Qed.

(** X16. With every utilization that is present between 0 and 100,
    [printQuota] throws nothing and logs the header and one line for each
    limit that is present; a limit that is absent is left out. *)
Theorem printQuota_in_range (now : Z) (quota : Quota) :
  utilizationInRange (five_hour quota) ->
  utilizationInRange (seven_day quota) ->
  snd (printQuota showNumber now quota) = None
  /\ length (fst (printQuota showNumber now quota)) =
     (1 + match five_hour quota with Some _ => 1 | None => 0 end
        + match seven_day quota with Some _ => 1 | None => 0 end)%nat.
Proof.
  intros H5 H7. unfold printQuota. cbv zeta.
  destruct (five_hour quota) as [l5|]; destruct (seven_day quota) as [l7|];
    try (destruct (quotaLine_in_range now "  5-hour  " l5 H5) as [line5 ->]);
    try (destruct (quotaLine_in_range now "  7-day   " l7 H7) as [line7 ->]);
    split; reflexivity.
Qed.

(** X17. A 5-hour utilization of 102.5 or more stops [printQuota] after the
    header: the bar throws, and neither limit is logged. *)
Theorem printQuota_over (now : Z) (quota : Quota) (limit : QuotaLimit) (u : Q) :
  five_hour quota = Some limit ->
  utilization limit = Some u ->
  ((205 # 2) <= u)%Q ->
  exists header message,
    printQuota showNumber now quota = ([header], Some message).
Proof.
  intros H5 Hu Hover. unfold printQuota, quotaLine. cbv zeta.
  rewrite H5, Hu.
  assert (Qeq_bool u 0 = false) as ->.
  { apply not_true_iff_false. intros E. apply Qeq_bool_eq in E.
    rewrite E in Hover. exact (Hover eq_refl). }
  destruct (makeQuotaBar_over u Hover) as [message ->].
  do 2 eexists. reflexivity.
Qed.

End PrintQuotaFacts.

Lemma printQuota_in_range_witness :
  snd (printQuota (fun _ => "40"%string) noon20000
         {| five_hour := Some {| utilization := Some 40%Q; resets_at := NoDate |};
            seven_day := None |}) = None.
Proof.
  apply (printQuota_in_range (fun _ => "40"%string) noon20000
           {| five_hour := Some {| utilization := Some 40%Q; resets_at := NoDate |};
              seven_day := None |}).
  - simpl. split; discriminate.
  - exact I.
Defined.

Lemma printQuota_over_witness :
  exists header message,
    printQuota (fun _ => "103"%string) noon20000
      {| five_hour := Some {| utilization := Some 103%Q; resets_at := NoDate |};
         seven_day := Some {| utilization := Some 10%Q; resets_at := NoDate |} |}
    = ([header], Some message).
Proof.
  apply (printQuota_over (fun _ => "103"%string) noon20000 _
           {| utilization := Some 103%Q; resets_at := NoDate |} 103);
    [reflexivity | reflexivity | discriminate].
Defined.

(** ** Heatmap *)

Lemma Math_max1_present (recent : list DailyActivity) :
  countsPresent recent ->
  exists m, Math_max1 (map messageCount recent) = Some m
            /\ 1 <= m /\ Forall (fun d => count d <= m) recent.
Proof.
  induction 1 as [|d recent (n & Hn & Hpos) _ (m & Hm & H1 & Hall)]; simpl.
  - exists 1. repeat split; [lia | constructor].
  - rewrite Hn, Hm. exists (Z.max n m). repeat split; [lia|].
    constructor.
    + unfold count. rewrite Hn. simpl. lia.
    + eapply Forall_impl; [exact Hall|]. simpl. intros. lia.
Qed.

Lemma Math_max1_missing (recent : list DailyActivity) (d : DailyActivity) :
  In d recent -> messageCount d = None ->
  Math_max1 (map messageCount recent) = None.
Proof.
  induction recent as [|x recent IH]; simpl; [contradiction|].
  intros [->|Hin] Hnone.
  - rewrite Hnone. reflexivity.
  - rewrite (IH Hin Hnone). destruct (messageCount x); reflexivity.
Qed.

Lemma Qltb_Qeq (x y b : Q) : (x == y)%Q -> Qltb x b = Qltb y b.
Proof. intros H. unfold Qltb. rewrite H. reflexivity. Qed.

Lemma getHeatColor_Qeq (x y : Q) :
  (x == y)%Q -> getHeatColor (Finite x) = getHeatColor (Finite y).
Proof.
  intros H. unfold getHeatColor.
  rewrite !(Qltb_Qeq x y _ H).
  replace (Qeq_bool x 0) with (Qeq_bool y 0); [reflexivity|].
  apply eq_true_iff_eq. rewrite !Qeq_bool_iff, H. reflexivity.
Qed.

Lemma heatBlock_Qeq (x y : Q) :
  (x == y)%Q -> heatBlock (Finite x) = heatBlock (Finite y).
Proof.
  intros H. unfold heatBlock.
  assert (Qfloor (x * 4) = Qfloor (y * 4)) as -> by (rewrite H; reflexivity).
  reflexivity.
Qed.

Lemma ratio_range (n m : Z) :
  0 <= n <= m -> 1 <= m ->
  (inject_Z 0 <= inject_Z n / inject_Z m * 4)%Q
  /\ (inject_Z n / inject_Z m * 4 <= inject_Z 4)%Q.
Proof.
  intros Hn Hm. destruct m as [|m|m]; try lia.
  unfold Qle, Qdiv, Qmult, Qinv, inject_Z. simpl. split; lia.
Qed.

(** X18. On records that all have a count that is not negative, the divisor of
    the heatmap is at least 1 and every cell shows one of the four blocks;
    a day without messages shows the lightest block, dimmed, and a day
    with the highest count shows the full block in bright red. *)
Theorem heatCell_blocks (recent : list DailyActivity) :
  countsPresent recent ->
  exists m,
    Math_max1 (map messageCount recent) = Some m /\ 1 <= m
    /\ forall day, In day recent ->
         In (heatBlock (divide (messageCount day) (Some m))) blocks
         /\ (count day = 0 ->
             heatCell (Some m) day = (c.dim +:+ "░" +:+ c.reset)%string)
         /\ (count day = m ->
             heatCell (Some m) day = (c_brightRed +:+ "█" +:+ c.reset)%string).
Proof.
  intros Hpresent.
  destruct (Math_max1_present recent Hpresent) as (m & Hm & H1 & Hall).
  exists m. split; [exact Hm|]. split; [exact H1|].
  intros day Hin.
  rewrite List.Forall_forall in Hall. pose proof (Hall day Hin) as Hle.
  unfold countsPresent in Hpresent. rewrite List.Forall_forall in Hpresent.
  destruct (Hpresent day Hin) as (n & Hn & Hpos).
  unfold count in *. unfold heatCell. rewrite Hn in *. simpl in Hle.
  unfold divide. destruct (Z.eqb_spec m 0) as [|_]; [lia|].
  split; [|split].
  - destruct (ratio_range n m ltac:(lia) H1) as [Hlo Hhi].
    unfold heatBlock. cbv zeta.
    pose proof (Qfloor_resp_le _ _ Hlo) as Hf0.
    pose proof (Qfloor_resp_le _ _ Hhi) as Hf4.
    rewrite Qfloor_Z in Hf0, Hf4.
    remember (Z.min (Qfloor (inject_Z n / inject_Z m * 4)) 3) as b eqn:Hb.
    assert (b = 0 \/ b = 1 \/ b = 2 \/ b = 3) as [->|[->|[->| ->]]] by lia;
      simpl; tauto.
  - intros Hc. cbn [or_zero] in Hc. subst n.
    assert (inject_Z 0 / inject_Z m == 0)%Q as Hzero by reflexivity.
    rewrite (getHeatColor_Qeq _ 0 Hzero), (heatBlock_Qeq _ 0 Hzero). reflexivity.
  - intros Hc. cbn [or_zero] in Hc. subst n.
    assert (inject_Z m / inject_Z m == 1)%Q as Hone.
    { apply Qmult_inv_r. intros H0. apply (inject_Z_injective m 0) in H0. lia. }
    rewrite (getHeatColor_Qeq _ 1 Hone), (heatBlock_Qeq _ 1 Hone). reflexivity.
Qed.

Lemma heatCell_blocks_witness :
  exists m,
    Math_max1 (map messageCount [record 1 0 0 0; record 2 8 1 0; record 3 3 1 0])
      = Some m /\ 1 <= m.
Proof.
  destruct (heatCell_blocks [record 1 0 0 0; record 2 8 1 0; record 3 3 1 0])
    as (m & Hm & H1 & _).
  - repeat constructor; eexists; (split; [reflexivity | lia]).
  - exists m. split; assumption.
Defined.

(** X19. One record without [messageCount] among those drawn makes the divisor
    NaN: every cell of the heatmap then shows [undefined], in bright red. *)
Theorem heatCell_missing_count (recent : list DailyActivity)
    (d day : DailyActivity) :
  In d recent -> messageCount d = None ->
  heatCell (Math_max1 (map messageCount recent)) day =
  (c_brightRed +:+ "undefined" +:+ c.reset)%string.
Proof.
  intros Hin Hnone. rewrite (Math_max1_missing recent d Hin Hnone).
  unfold heatCell, divide. destruct (messageCount day); reflexivity.
Qed.

Lemma heatCell_missing_count_witness :
  heatCell (Math_max1 (map messageCount
              [record 1 4 1 0;
               {| date := 2; messageCount := None; sessionCount := Some 1;
                  toolCallCount := None |}]))
           (record 1 4 1 0)
  = (c_brightRed +:+ "undefined" +:+ c.reset)%string.
Proof.
  apply (heatCell_missing_count _
           {| date := 2; messageCount := None; sessionCount := Some 1;
              toolCallCount := None |}).
  - right. left. reflexivity.
  - reflexivity.
Defined.

(** [slice(-days)] keeps the last [days] records, all of them when there
    are fewer, and all of them when [days] is 0. *)
Theorem slice_last_suffix {A : Type} (l : list A) (days : nat) :
  (exists front, l = front ++ slice_last l days)
  /\ length (slice_last l days) =
     match days with
     | O => length l
     | _ => Nat.min days (length l)
     end.
Proof.
  unfold slice_last. destruct days as [|days].
  - split; [exists []; reflexivity | reflexivity].
  - split.
    + exists (firstn (length l - S days) l). symmetry. apply firstn_skipn.
    + rewrite length_skipn. lia.
Qed.

(** ** Daily chart *)

Lemma js_gt_count (x y : DailyActivity) :
  (exists n, messageCount x = Some n) -> (exists n, messageCount y = Some n) ->
  js_gt (messageCount x) (messageCount y) = (count y <? count x).
Proof. intros [n Hn] [k Hk]. unfold count. rewrite Hn, Hk. reflexivity. Qed.

(** The [reduce] of [printDailyChart] from any start: it ends on the start
    or on the first record that beats the start and all records before
    itself, and no record beats where it ends. *)
Lemma peak_fold (l : list DailyActivity) :
  Forall (fun d => exists n, messageCount d = Some n) l ->
  forall (k p0 : nat) (d0 : DailyActivity),
    (exists n, messageCount d0 = Some n) ->
    let r := fold_left
               (fun max d =>
                  if js_gt (messageCount (snd d)) (messageCount (snd max))
                  then d else max)
               (combine (seq k (length l)) l) (p0, d0) in
    (forall x, In x l -> count x <= count (snd r))
    /\ count d0 <= count (snd r)
    /\ (r = (p0, d0)
        \/ exists j, fst r = (k + j)%nat /\ nth_error l j = Some (snd r)
                     /\ count d0 < count (snd r)
                     /\ forall i x, (i < j)%nat -> nth_error l i = Some x ->
                                    count x < count (snd r)).
Proof.
  induction 1 as [|x l Hx _ IH]; intros k p0 d0 Hd0; cbv zeta.
  - simpl. split; [contradiction|]. split; [lia | left; reflexivity].
  - cbn [length seq combine fold_left snd].
    rewrite (js_gt_count x d0 Hx Hd0).
    destruct (Z.ltb_spec (count d0) (count x)) as [Hgt|Hle].
    + specialize (IH (S k) k x Hx). cbv zeta in IH.
      destruct IH as (Hall & Hstart & Hwhere).
      split; [|split; [lia|right]].
      * intros y [<-|Hy]; [exact Hstart | apply Hall, Hy].
      * destruct Hwhere as [->|(j & Hj & Hnth & Hbeat & Hfirst)].
        -- exists 0%nat. simpl. repeat split; [lia | exact Hgt |].
           intros i y Hi. lia.
        -- exists (S j). simpl. repeat split; [lia | exact Hnth | lia |].
           intros [|i] y Hi Hy; simpl in Hy.
           ++ injection Hy as <-. exact Hbeat.
           ++ apply (Hfirst i y); [lia | exact Hy].
    + specialize (IH (S k) p0 d0 Hd0). cbv zeta in IH.
      destruct IH as (Hall & Hstart & Hwhere).
      split; [|split; [exact Hstart|]].
      * intros y [<-|Hy]; [lia | apply Hall, Hy].
      * destruct Hwhere as [Heq|(j & Hj & Hnth & Hbeat & Hfirst)];
          [left; exact Heq | right].
        exists (S j). simpl. repeat split; [lia | exact Hnth | exact Hbeat |].
        intros [|i] y Hi Hy; simpl in Hy.
        -- injection Hy as <-. lia.
        -- apply (Hfirst i y); [lia | exact Hy].
Qed.

Lemma countsPresent_some (recent : list DailyActivity) :
  countsPresent recent ->
  Forall (fun d => exists n, messageCount d = Some n) recent.
Proof.
  intros H. eapply Forall_impl; [exact H|]. simpl.
  intros d (n & Hn & _). exists n. exact Hn.
Qed.

(** X20. On records that all have a count, [peakDay] is the first record with
    the highest count, and the row that gets the star is that one, if its
    count is positive: one star at most, none when no day has messages. *)
Theorem peakDay_first_highest (recent : list DailyActivity) :
  countsPresent recent -> recent <> [] ->
  exists p d,
    peakDay recent = Some (p, d)
    /\ nth_error recent p = Some d
    /\ (forall x, In x recent -> count x <= count d)
    /\ (forall i x, (i < p)%nat -> nth_error recent i = Some x -> count x < count d)
    /\ (forall i day, nth_error recent i = Some day ->
          (isPeak recent i day = true <-> i = p /\ 0 < count d)).
Proof.
  intros Hpresent Hne.
  destruct recent as [|first rest]; [contradiction|].
  pose proof (countsPresent_some _ Hpresent) as Hsome.
  assert (exists n, messageCount first = Some n) as Hfirst
    by (inversion Hsome; assumption).
  pose proof (peak_fold (first :: rest) Hsome 0 0 first Hfirst) as Hfold.
  cbv zeta in Hfold.
  unfold isPeak, peakDay, indexed.
  destruct (fold_left _ _ _) as [p d] eqn:Efold. simpl fst in *. simpl snd in *.
  destruct Hfold as (Hall & _ & Hwhere).
  assert (nth_error (first :: rest) p = Some d
          /\ forall i x, (i < p)%nat -> nth_error (first :: rest) i = Some x ->
                         count x < count d) as [Hnth Hbefore].
  { destruct Hwhere as [Heq|(j & Hj & Hnth & _ & Hbefore)].
    - injection Heq as -> ->. split; [reflexivity|]. intros i x Hi. lia.
    - simpl in Hj. subst j. split; assumption. }
  exists p, d. split; [reflexivity|]. split; [exact Hnth|].
  split; [exact Hall|]. split; [exact Hbefore|].
  intros i day Hday. split.
  - intros Hpeak. apply andb_true_iff in Hpeak as [Hp Hpos].
    apply Nat.eqb_eq in Hp. subst i.
    rewrite Hnth in Hday. injection Hday as <-. split; [reflexivity|].
    unfold count. destruct (messageCount d); simpl in *; [lia | discriminate].
  - intros [-> Hpos]. rewrite Hnth in Hday. injection Hday as <-.
    rewrite Nat.eqb_refl. unfold count in Hpos.
    destruct (messageCount d); simpl in *; [|lia].
    apply Z.ltb_lt, Hpos.
Qed.

Lemma peakDay_first_highest_witness :
  exists p d,
    peakDay [record 1 3 1 0; record 2 9 1 0; record 3 9 2 0] = Some (p, d)
    /\ nth_error [record 1 3 1 0; record 2 9 1 0; record 3 9 2 0] p = Some d.
Proof.
  destruct (peakDay_first_highest [record 1 3 1 0; record 2 9 1 0; record 3 9 2 0])
    as (p & d & Hpeak & Hnth & _).
  - repeat constructor; eexists; (split; [reflexivity | lia]).
  - discriminate.
  - exists p, d. split; assumption.
Defined.

Lemma makeGradientBar_cells (n m : Z) :
  0 <= n <= m -> 1 <= m ->
  exists color filled,
    (filled <= 25)%nat
    /\ makeGradientBar (Some n) (Some m) 25 = Ok (bar color filled (25 - filled))
    /\ (n = m -> filled = 25%nat /\ color = c_brightRed).
Proof.
  intros Hn Hm. unfold makeGradientBar, divide, js_gt. cbv zeta.
  destruct (Z.eqb_spec m 0) as [|_]; [lia|].
  destruct (Z.ltb_spec 0 m) as [_|]; [|lia].
  set (q := (inject_Z n / inject_Z m)%Q).
  assert ((inject_Z 0 <= q * inject_Z 25)%Q /\ (q * inject_Z 25 <= inject_Z 25)%Q)
    as [Hlo Hhi].
  { subst q. destruct m as [|m|m]; try lia.
    unfold Qle, Qdiv, Qmult, Qinv, inject_Z. simpl. split; lia. }
  pose proof (Math_round_range _ 0 25 Hlo Hhi) as Hr.
  exists (getHeatColor (Finite q)), (Z.to_nat (Math_round (q * inject_Z 25))).
  split; [lia|]. split.
  - unfold String_repeat_number, String_repeat. simpl.
    destruct (Z.ltb_spec (Math_round (q * inject_Z 25)) 0); [lia|].
    destruct (Z.ltb_spec (25 - Math_round (q * inject_Z 25)) 0); [lia|].
    simpl. unfold bar.
    replace (Z.to_nat (25 - Math_round (q * inject_Z 25)))
      with (25 - Z.to_nat (Math_round (q * inject_Z 25)))%nat by lia.
    reflexivity.
  - intros ->. subst q.
    assert (inject_Z m / inject_Z m == 1)%Q as Hone.
    { apply Qmult_inv_r. intros H0. apply (inject_Z_injective m 0) in H0. lia. }
    split.
    + rewrite (Math_round_Qeq _ (1 * inject_Z 25)) by (rewrite Hone; reflexivity).
      reflexivity.
    + rewrite (getHeatColor_Qeq _ 1 Hone). reflexivity.
Qed.

(** X21. On records that all have a count that is not negative, no bar of the
    daily chart throws and each has exactly 25 cells; the bar of a day
    with the highest count of a window with messages is full. *)
Theorem chartBars_cells (activity : list DailyActivity) (days : nat) :
  countsPresent (slice_last activity days) ->
  Forall (fun b => exists color filled,
                     (filled <= 25)%nat /\ b = Ok (bar color filled (25 - filled)))
         (chartBars activity days)
  /\ forall m day,
       Math_max1 (map messageCount (slice_last activity days)) = Some m ->
       In day (slice_last activity days) -> count day = m ->
       makeGradientBar (messageCount day) (Some m) 25 = Ok (bar c_brightRed 25 0).
Proof.
  intros Hpresent. unfold chartBars. cbv zeta.
  set (recent := slice_last activity days) in *.
  destruct (Math_max1_present recent Hpresent) as (m & Hm & H1 & Hall).
  rewrite Hm. unfold countsPresent in Hpresent.
  rewrite List.Forall_forall in Hpresent, Hall.
  split.
  - apply List.Forall_forall. intros b Hb.
    apply in_map_iff in Hb as (day & <- & Hin).
    destruct (Hpresent day Hin) as (n & Hn & Hpos).
    pose proof (Hall day Hin) as Hle. unfold count in Hle. rewrite Hn in *.
    destruct (makeGradientBar_cells n m ltac:(simpl in Hle; lia) H1)
      as (color & filled & Hf & Hbar & _).
    exists color, filled. split; assumption.
  - intros m' day Hm' Hin Hcount. injection Hm' as <-.
    destruct (Hpresent day Hin) as (n & Hn & Hpos).
    unfold count in Hcount. rewrite Hn in *. simpl in Hcount. subst n.
    destruct (makeGradientBar_cells m m ltac:(lia) H1)
      as (color & filled & _ & Hbar & Hfull).
    destruct (Hfull eq_refl) as [-> ->]. exact Hbar.
Qed.

Lemma chartBars_cells_witness :
  Forall (fun b => exists color filled,
                     (filled <= 25)%nat /\ b = Ok (bar color filled (25 - filled)))
         (chartBars fortnight 10).
Proof.
  apply (proj1 (chartBars_cells fortnight 10
                  ltac:(repeat constructor; eexists; (split; [reflexivity | lia])))).
Defined.

(** ** Keys, quitting and what [render] leaves behind *)

Section HandlerFacts.
Context {Json Data : Type}.
Implicit Types (flags : Flags) (w : World Json Data) (p : Process).

Lemma quiet_bind {A B : Type} (m : io A) (k : A -> io B) :
  quiet m -> (forall a, quiet (k a)) -> quiet (m ≫= k).
Proof.
  intros Hm Hk p. unfold mbind, io_bind.
  destruct (Hm p) as (He & Hg & Hx).
  destruct (m p) as [[a|message|code] p1]; simpl in *.
  - destruct (Hk a p1) as (He' & Hg' & Hx').
    repeat split; [congruence | congruence | exact Hx'].
  - repeat split; [exact He | exact Hg | discriminate].
  - exfalso. exact (Hx code eq_refl).
Qed.

Lemma quiet_lift {A : Type} (o : outcome A) : quiet (lift o).
Proof. intros p. destruct o; simpl; repeat split; discriminate. Qed.

Lemma quiet_draw (d : Drawing) : quiet (draw d).
Proof. intros p. unfold draw. destruct (snd d); simpl; repeat split; discriminate. Qed.

Lemma quiet_stdout_write (chunk : string) : quiet (stdout_write chunk).
Proof. intros p. simpl. repeat split. discriminate. Qed.

Lemma quiet_ret {A : Type} (a : A) : quiet (mret a : io A).
Proof. intros p. simpl. repeat split. discriminate. Qed.

Lemma quiet_readShowGoals : quiet readShowGoals.
Proof. intros p. simpl. repeat split. discriminate. Qed.

(** The [try] block of [render]. *)
Lemma render_try_quiet flags w :
  quiet (text ← lift (readFileSync w);
         data ← lift (JSON_parse w text);
         let auth := loadAuth w in
         quota ← match auth with
                 | Some a =>
                     if String.eqb (type a) "oauth"
                     then lift (fetchQuota (fetch w) auth)
                     else mret None
                 | None => mret None
                 end;
         if jsonOutput flags then draw (printJSON w data)
         else if compactOutput flags then draw (printCompact w data)
         else if bool_decide (is_Some (exportFile flags))
         then draw (exportStats w data)
         else
           (when (watchMode flags) (stdout_write clear);;
            goalsShown ← readShowGoals;
            draw (printStats w data quota goalsShown))).
Proof.
  apply quiet_bind; [apply quiet_lift|]. intros text.
  apply quiet_bind; [apply quiet_lift|]. intros data. cbv zeta.
  apply quiet_bind.
  - destruct (loadAuth w) as [a|]; [|apply quiet_ret].
    destruct (String.eqb (type a) "oauth"); [apply quiet_lift | apply quiet_ret].
  - intros quota.
    destruct (jsonOutput flags); [apply quiet_draw|].
    destruct (compactOutput flags); [apply quiet_draw|].
    destruct (bool_decide _); [apply quiet_draw|].
    apply quiet_bind.
    + unfold when. destruct (watchMode flags);
        [apply quiet_stdout_write | apply quiet_ret].
    + intros _. apply quiet_bind; [apply quiet_readShowGoals|].
      intros shown. apply quiet_draw.
Qed.

(** X22. [render] ends normally or, outside watch mode only, in
    [process.exit(1)]; it never ends by an exception.  When it does not
    end normally it has written exactly one more line to [stderr].  It
    never changes the [showGoals] toggle. *)
Theorem render_outcome flags w p :
  exists p',
    showGoals p' = showGoals p
    /\ (render flags w p = (Normal tt, p')
        \/ (watchMode flags = false
            /\ render flags w p = (Exit 1, p')
            /\ exists message, stderr p' = stderr p ++ [errorLine message])).
Proof.
  unfold render, io_try_catch.
  pose proof (render_try_quiet flags w p) as (He & Hg & Hx).
  match type of He with context [?body p] =>
    destruct (body p) as [[[]|message|code] p1] end; simpl in *.
  - exists p1. split; [exact Hg | left; reflexivity].
  - destruct (watchMode flags); simpl.
    + eexists. split; [|left; reflexivity]. simpl. exact Hg.
    + eexists. split; [|right; split; [reflexivity|split; [reflexivity|]]].
      * simpl. exact Hg.
      * exists message. simpl. rewrite He, errorLine_written. reflexivity.
  - exfalso. exact (Hx code eq_refl).
Qed.

Lemma render_showGoals flags w p :
  showGoals (snd (render flags w p)) = showGoals p.
Proof.
  unfold render, io_try_catch.
  pose proof (render_try_quiet flags w p) as (_ & Hg & _).
  match type of Hg with context [?body p] =>
    destruct (body p) as [[[]|message|code] p1] end; simpl in *;
    try exact Hg.
  destruct (watchMode flags); simpl; exact Hg.
Qed.

(** X23. A key other than [q], Ctrl+C, [r] and [g] does nothing. *)
Theorem handleKeypress_other_key flags w (char : string) p :
  char <> "q"%string -> char <> String (ascii_of_nat 3) EmptyString ->
  char <> "r"%string -> char <> "g"%string ->
  handleKeypress flags w char p = (Normal tt, p).
Proof.
  intros Hq Hc Hr Hg. unfold handleKeypress.
  apply String.eqb_neq in Hq, Hc, Hr, Hg.
  rewrite Hq, Hc, Hr, Hg. reflexivity.
Qed.

Lemma handleKeypress_g flags w p :
  handleKeypress flags w "g" p =
  match loadGoals w with
  | None =>
      (stdout_write clear;;
       render flags w;;
       console_log (newline +:+ c.yellow
                    +:+ "No goals set. Use: claude-meter --goals <daily> <weekly>"
                    +:+ c.reset)) p
  | Some _ => (toggleGoals;; render flags w) p
  end.
Proof.
  unfold handleKeypress, when. simpl. unfold mbind at 1 2, io_bind at 1 2. simpl.
  destruct (loadGoals w); reflexivity.
Qed.

(** X24. [g] flips the [showGoals] toggle when goals are set, and leaves it as
    it is when none are; so with goals set, [g] twice restores it. *)
Theorem handleKeypress_toggle flags w p :
  (loadGoals w <> None ->
   showGoals (snd (handleKeypress flags w "g" p)) = negb (showGoals p))
  /\ (loadGoals w = None ->
      showGoals (snd (handleKeypress flags w "g" p)) = showGoals p)
  /\ (forall w', loadGoals w <> None -> loadGoals w' <> None ->
        showGoals (snd (handleKeypress flags w' "g"
                          (snd (handleKeypress flags w "g" p))))
        = showGoals p).
Proof.
  assert (forall (v : World Json Data) q, loadGoals v <> None ->
            showGoals (snd (handleKeypress flags v "g" q)) = negb (showGoals q))
    as Hflip.
  { intros v q Hgoals. rewrite handleKeypress_g.
    destruct (loadGoals v); [|contradiction].
    unfold mbind, io_bind, toggleGoals. simpl.
    match goal with |- context [render flags v ?q'] =>
      pose proof (render_showGoals flags v q') as Hr;
      destruct (render flags v q') as [[[]|m|k] p1] end; exact Hr. }
  split; [apply Hflip|]. split.
  - intros Hnone. rewrite handleKeypress_g, Hnone.
    unfold mbind, io_bind, stdout_write at 1. simpl.
    match goal with |- context [render flags w ?q'] =>
      pose proof (render_showGoals flags w q') as Hr;
      destruct (render flags w q') as [[[]|m|k] p1] end; exact Hr.
  - intros w' Hgoals Hgoals'. rewrite !Hflip by assumption.
    apply negb_involutive.
Qed.

(** X25. A quit key or a signal shows the cursor again, says goodbye and ends
    the process with status 0, whatever was on the screen; the triggers
    that come after it are not handled. *)
Theorem quit_restores_cursor flags w (t : Trigger) p
    (events : list (World Json Data * Trigger)) :
  quits t = true ->
  eventLoop flags ((w, t) :: events) p =
  (Exit 0,
   {| stdout := stdout p ++ goodbye; stderr := stderr p;
      showGoals := showGoals p |}).
Proof.
  intros Hq. cbn [eventLoop]. unfold mbind at 1, io_bind at 1.
  assert (dispatch flags w t p =
          (Exit 0, {| stdout := stdout p ++ goodbye; stderr := stderr p;
                      showGoals := showGoals p |})) as ->; [|reflexivity].
  assert (cleanup p =
          (Exit 0, {| stdout := stdout p ++ goodbye; stderr := stderr p;
                      showGoals := showGoals p |})) as Hclean.
  { unfold cleanup, console_log, stdout_write, mbind, io_bind, process_exit, goodbye.
    simpl. rewrite <- !app_assoc. reflexivity. }
  destruct t as [| | |char|]; simpl in Hq; try discriminate.
  - cbn [dispatch]. unfold handleKeypress. rewrite Hq.
    unfold mbind at 1, io_bind at 1.
    change (when true cleanup p) with (cleanup p). rewrite Hclean. reflexivity.
  - exact Hclean.
Qed.

(** X26. When the quota cannot be fetched (a transport failure, or a status
    outside 2xx), the dashboard is drawn all the same, with no quota, and
    [render] ends normally with nothing written to [stderr]. *)
Theorem render_without_quota flags w p (text : string) (data : Data) (a : Auth) :
  dashboardMode flags ->
  statsFile w = Some text ->
  JSON_parse w text = Ok data ->
  loadAuth w = Some a ->
  ((exists message, fetch w (quotaRequest a) = Throw message)
   \/ exists response, fetch w (quotaRequest a) = Ok response
                       /\ ~ (200 <= status response <= 299)) ->
  snd (printStats w data None (showGoals p)) = None ->
  render flags w p =
  (Normal tt,
   {| stdout := (stdout p ++ (if watchMode flags then [clear] else []))
                ++ fst (printStats w data None (showGoals p));
      stderr := stderr p;
      showGoals := showGoals p |}).
Proof.
  intros (Hjson & Hcompact & Hexport) Hfile Hparse Hauth Hfail Hdrawn.
  assert (fetchQuota (fetch w) (Some a) = Ok None) as Hquota.
  { unfold fetchQuota. destruct (negb _); [reflexivity|].
    destruct Hfail as [[message ->]|(response & -> & Hstatus)]; [reflexivity|].
    simpl. destruct (ok response) eqn:E; [|reflexivity].
    apply ok_status in E. contradiction. }
  unfold render, io_try_catch, readFileSync.
  rewrite Hfile, Hjson, Hcompact, Hexport, Hauth. cbv zeta.
  unfold mbind at 1, io_bind at 1. simpl lift at 1. cbn [mret io_ret].
  rewrite Hparse.
  unfold mbind at 1, io_bind at 1. simpl lift at 1. cbn [mret io_ret].
  destruct (String.eqb (type a) "oauth").
  - rewrite Hquota. simpl.
    unfold mbind, io_bind, when, readShowGoals.
    destruct (watchMode flags); simpl; unfold draw; simpl; rewrite Hdrawn;
      simpl; rewrite ?app_nil_r; reflexivity.
  - simpl.
    unfold mbind, io_bind, when, readShowGoals.
    destruct (watchMode flags); simpl; unfold draw; simpl; rewrite Hdrawn;
      simpl; rewrite ?app_nil_r; reflexivity.
Qed.

End HandlerFacts.

Lemma handleKeypress_other_key_witness :
  handleKeypress watchFlags statsWorld "x" freshProcess = (Normal tt, freshProcess).
Proof. apply handleKeypress_other_key; discriminate. Defined.

Lemma handleKeypress_toggle_witness :
  showGoals (snd (handleKeypress watchFlags goalsWorld "g" freshProcess)) = false
  /\ showGoals (snd (handleKeypress watchFlags statsWorld "g" freshProcess)) = true.
Proof.
  split.
  - apply (proj1 (handleKeypress_toggle watchFlags goalsWorld freshProcess)).
    discriminate.
  - apply (proj1 (proj2 (handleKeypress_toggle watchFlags statsWorld freshProcess))).
    reflexivity.
Defined.

Lemma quit_restores_cursor_witness :
  eventLoop watchFlags [(statsWorld, Keypress "q"); (statsWorld, RefreshTimer)]
            freshProcess =
  (Exit 0, {| stdout := goodbye; stderr := []; showGoals := true |}).
Proof.
  apply (quit_restores_cursor watchFlags statsWorld (Keypress "q") freshProcess).
  reflexivity.
Defined.

Lemma render_without_quota_witness :
  render watchFlags statsWorld freshProcess =
  (Normal tt,
   {| stdout := [clear; "dashboard"%string]; stderr := []; showGoals := true |}).
Proof.
  apply (render_without_quota watchFlags statsWorld freshProcess "{}" 2%nat
           {| type := "oauth"; accessToken := Some "token" |}).
  - repeat split.
  - reflexivity.
  - reflexivity.
  - reflexivity.
  - left. exists "fetch failed"%string. reflexivity.
  - reflexivity.
Defined.

(** ** Colour of a count *)

Lemma ratio_ltb (value high a : Z) (b : positive) :
  0 < high ->
  Qltb (inject_Z value / inject_Z high) (a # b) = (Z.pos b * value <? a * high).
Proof.
  intros Hh. apply eq_true_iff_eq. rewrite Qltb_lt, Z.ltb_lt.
  destruct high as [|h|h]; try lia.
  unfold Qlt, Qdiv, Qmult, Qinv, inject_Z. simpl. lia.
Qed.

(** In exact arithmetic the colour changes at 10%, 30%, 50%, 70% and 90%
    of the threshold. *)
Lemma getActivityColor_exact_bands (value highThreshold : Z) :
  0 < highThreshold ->
  getActivityColor value highThreshold =
  if 10 * value <? highThreshold then c.dim
  else if 10 * value <? 3 * highThreshold then c_blue
  else if 10 * value <? 5 * highThreshold then c_cyan
  else if 10 * value <? 7 * highThreshold then c.green
  else if 10 * value <? 9 * highThreshold then c_yellow
  else c_brightRed.
Proof.
  intros Hh. unfold getActivityColor. cbv zeta.
  rewrite !(ratio_ltb value highThreshold _ 10 Hh).
  rewrite Z.mul_1_l. reflexivity.
Qed.

Lemma allFrom_spec (check : Z -> bool) (fuel : nat) :
  forall n, allFrom fuel n check = true ->
            forall k, n <= k < n + Z.of_nat fuel -> check k = true.
Proof.
  induction fuel as [|fuel IH]; intros n Hall k Hk; [lia|].
  cbn [allFrom] in Hall. destruct (check n) eqn:Hn; [|discriminate].
  destruct (Z.eq_dec k n) as [->|Hne]; [exact Hn|].
  rename Hall into Hrest.
  apply (IH (n + 1) Hrest). lia.
Qed.

Lemma getActivityColor64_checked :
  allFrom (Z.to_nat 5001) 0 (fun v => String.eqb (getActivityColor64 v 5000)
                                      (getActivityColor v 5000))
  && allFrom (Z.to_nat 30001) 0 (fun v => String.eqb (getActivityColor64 v 30000)
                                          (getActivityColor v 30000))
  && allFrom (Z.to_nat 100001) 0 (fun v => String.eqb (getActivityColor64 v 100000)
                                           (getActivityColor v 100000))
  = true.
Proof. vm_cast_no_check (eq_refl true). Qed.

(** ** The trend and the scale of the totals *)

(** X28. The trend depends on the ratio of the two totals only: multiplying
    both by the same positive number does not change it. *)
Theorem getTrend_scale (current previous k : Z) :
  0 < k -> 0 <= previous ->
  getTrend (k * current) (k * previous) = getTrend current previous.
Proof.
  intros Hk Hp. destruct (Z.eq_dec previous 0) as [->|Hne].
  - rewrite Z.mul_0_r. reflexivity.
  - rewrite !getTrend_cases by nia.
    replace (k * previous <? 10 * (k * current - k * previous))
      with (previous <? 10 * (current - previous))
      by (apply eq_true_iff_eq; rewrite !Z.ltb_lt; nia).
    replace (10 * (k * current - k * previous) <? - (k * previous))
      with (10 * (current - previous) <? - previous)
      by (apply eq_true_iff_eq; rewrite !Z.ltb_lt; nia).
    reflexivity.
Qed.

Lemma getTrend_scale_witness : getTrend (7 * 111) (7 * 100) = getTrend 111 100.
Proof. apply getTrend_scale; lia. Defined.

(** ** Short numbers *)

Lemma nearestTenth_checked : allFrom (Z.to_nat 99000) 1000 nearestTenth = true.
Proof. vm_cast_no_check (eq_refl true). Qed.

(** X29. From 1000 to 99 999, [formatNumber] shows the thousands with one
    decimal and the suffix K, and what it shows is within 50 of the
    number. *)
Theorem formatNumber_thousands (n : Z) :
  1000 <= n <= 99999 ->
  exists t, formatNumber n = (show_tenths t +:+ "K")%string
            /\ Z.abs (100 * t - n) <= 50.
Proof.
  intros Hn.
  pose proof (allFrom_spec _ _ _ nearestTenth_checked n ltac:(lia)) as Hnear.
  unfold nearestTenth in Hnear. unfold formatNumber, toFixed1.
  destruct (Z.leb_spec 1000000 n); [lia|].
  destruct (Z.leb_spec 1000 n); [|lia].
  destruct (toFixed_scaled _ 1) as [t|]; [|discriminate].
  exists t. split; [reflexivity | apply Z.leb_le, Hnear].
Qed.

Lemma formatNumber_thousands_witness :
  exists t, formatNumber 1400 = (show_tenths t +:+ "K")%string
            /\ Z.abs (100 * t - 1400) <= 50.
Proof. apply formatNumber_thousands. lia. Defined.

Lemma rollover_checked :
  allFrom (Z.to_nat 50) 999950 (fun n => String.eqb (formatNumber n) "1000.0K")
  && allFrom (Z.to_nat 500) 999500 (fun n => String.eqb (formatTokens n) "1000K")
  = true.
Proof. vm_compute. reflexivity. Qed.

(** X30. Just below a million the suffix does not change with the rounding:
    [formatNumber] shows 1000.0K from 999 950 on and [formatTokens] shows
    1000K from 999 500 on, up to 999 999. *)
Theorem formatNumber_below_million (n : Z) :
  (999950 <= n <= 999999 -> formatNumber n = "1000.0K"%string)
  /\ (999500 <= n <= 999999 -> formatTokens n = "1000K"%string).
Proof.
  pose proof rollover_checked as Hall.
  apply andb_true_iff in Hall as [H1 H2].
  split; intros Hn; apply String.eqb_eq.
  - apply (allFrom_spec _ _ _ H1 n). lia.
  - apply (allFrom_spec _ _ _ H2 n). lia.
Qed.

Lemma formatNumber_below_million_witness :
  formatNumber 999950 = "1000.0K"%string /\ formatTokens 999500 = "1000K"%string.
Proof.
  split.
  - apply (proj1 (formatNumber_below_million 999950)). lia.
  - apply (proj2 (formatNumber_below_million 999500)). lia.
Defined.

(** ** The monthly windows *)

Lemma localMidnight_le (tz day d : Z) :
  - MS_PER_DAY < tz < MS_PER_DAY ->
  (localMidnight tz day <=? newDate d) =
  (if tz <? 0 then day + 1 <=? d else day <=? d).
Proof.
  unfold localMidnight, newDate, MS_PER_DAY. intros Htz.
  destruct (Z.ltb_spec tz 0); apply eq_true_iff_eq; rewrite !Z.leb_le; lia.
Qed.

Lemma le_localMidnight (tz day d : Z) :
  - MS_PER_DAY < tz < MS_PER_DAY ->
  (newDate d <=? localMidnight tz day) =
  (if 0 <? tz then d <=? day - 1 else d <=? day).
Proof.
  unfold localMidnight, newDate, MS_PER_DAY. intros Htz.
  destruct (Z.ltb_spec 0 tz); apply eq_true_iff_eq; rewrite !Z.leb_le; lia.
Qed.

(** X11. The monthly windows on the calendar.  In UTC they are the month so far
    and the whole month before.  East of UTC the last day of the month
    before is in neither window; west of UTC the first day of the month
    and the first day of the month before are in neither. *)
Theorem months_on_calendar (tz prevFirstDay firstDay : Z)
    (activity : list DailyActivity) :
  - MS_PER_DAY < tz < MS_PER_DAY ->
  getThisMonth tz firstDay activity =
    List.filter (fun d => if tz <? 0 then firstDay + 1 <=? date d
                          else firstDay <=? date d) activity
  /\ getLastMonth tz prevFirstDay firstDay activity =
    List.filter
      (fun d => (if tz <? 0 then prevFirstDay + 1 <=? date d
                 else prevFirstDay <=? date d)
                && (if 0 <? tz then date d <=? firstDay - 2
                    else date d <=? firstDay - 1))
      activity.
Proof.
  intros Htz. split.
  - unfold getThisMonth. apply List.filter_ext. intros d.
    apply localMidnight_le, Htz.
  - unfold getLastMonth. apply List.filter_ext. intros d. cbv zeta.
    rewrite (localMidnight_le tz _ _ Htz), (le_localMidnight tz _ _ Htz).
    replace (firstDay - 1 - 1) with (firstDay - 2) by lia. reflexivity.
Qed.

Lemma months_on_calendar_witness :
  getLastMonth 7200000 19967 19997 [record 19996 5 1 0; record 19995 3 1 0]
  = [record 19995 3 1 0]
  /\ getThisMonth (- 18000000) 19997 [record 19997 5 1 0; record 19998 3 1 0]
     = [record 19998 3 1 0].
Proof.
  split.
  - rewrite (proj2 (months_on_calendar 7200000 19967 19997
                      [record 19996 5 1 0; record 19995 3 1 0]
                      ltac:(unfold MS_PER_DAY; lia))).
    reflexivity.
  - rewrite (proj1 (months_on_calendar (- 18000000) 19967 19997
                      [record 19997 5 1 0; record 19998 3 1 0]
                      ltac:(unfold MS_PER_DAY; lia))).
    reflexivity.
Defined.

(** X27. In double precision, with the three thresholds of the table and a
    count from 0 up to the threshold, the colour changes exactly at 10%,
    30%, 50%, 70% and 90% of the threshold, each of these counts having
    the colour of the band above it. *)
Theorem getActivityColor64_bands (value highThreshold : Z) :
  highThreshold = 5000 \/ highThreshold = 30000 \/ highThreshold = 100000 ->
  0 <= value <= highThreshold ->
  getActivityColor64 value highThreshold =
  if 10 * value <? highThreshold then c.dim
  else if 10 * value <? 3 * highThreshold then c_blue
  else if 10 * value <? 5 * highThreshold then c_cyan
  else if 10 * value <? 7 * highThreshold then c.green
  else if 10 * value <? 9 * highThreshold then c_yellow
  else c_brightRed.
Proof.
  intros Hh Hv.
  assert (0 < highThreshold) as Hpos by lia.
  rewrite <- (getActivityColor_exact_bands value highThreshold Hpos).
  pose proof getActivityColor64_checked as Hall.
  apply andb_true_iff in Hall as [Hall H3]. apply andb_true_iff in Hall as [H1 H2].
  apply String.eqb_eq.
  destruct Hh as [->|[->| ->]].
  - apply (allFrom_spec _ _ _ H1 value). lia.
  - apply (allFrom_spec _ _ _ H2 value). lia.
  - apply (allFrom_spec _ _ _ H3 value). lia.
Qed.

Lemma getActivityColor64_bands_witness :
  getActivityColor64 1500 5000 = c_cyan /\ getActivityColor64 1499 5000 = c_blue.
Proof.
  split; rewrite getActivityColor64_bands by (try (left; reflexivity); lia);
    reflexivity.
Defined.

